(** * The generic Teleport resource reconciler of the Kubernetes operator

    A shallow embedding of [TeleportResourceReconciler.Upsert] and
    [TeleportResourceReconciler.Delete] (operator/controllers/resources), of the
    three connector adapters built on them (OIDC, SAML, GitHub), and of the
    condition bookkeeping they rely on.

    Go's effects are made explicit: every call that leaves the process (the
    bound remote-client functions and the Kubernetes status writer) is a state
    transformer over an abstract world [B], and the engine records each such
    call, in program order, in a log of [Event]s. *)

From stdpp Require Import base strings list gmap.
From Stdlib Require Import ZArith.

Local Open Scope Z_scope.

(** ** Errors

    Only the classification that the engine inspects ([trace.IsNotFound]) and
    the message are kept; stack traces added by [trace.Wrap] are not. *)

Inductive ErrClass := NotFound | OwnershipConflict | OtherError.

Record error := Error { err_class : ErrClass; err_msg : string }.

Global Instance ErrClass_eq_dec : EqDecision ErrClass.
Proof. solve_decision. Defined.

Global Instance error_eq_dec : EqDecision error.
Proof. solve_decision. Defined.

(** [trace.IsNotFound(err)]: false on a nil error. *)
Definition IsNotFound (err : option error) : bool :=
  match err with
  | Some e => bool_decide (err_class e = NotFound)
  | None => false
  end.

(** [trace.Wrap(err)]: nil stays nil, the classification and the message of a
    non-nil error are preserved. *)
Definition Wrap (err : option error) : option error := err.

(** [fmt.Errorf(format, ...)]: a plain error, hence not NotFound. *)
Definition Errorf (msg : string) : option error := Some (Error OtherError msg).

(** [err != nil] *)
Definition notnil {A} (x : option A) : bool :=
  match x with Some _ => true | None => false end.

(** ** Status conditions ([metav1.Condition]) *)

Inductive ConditionStatus := ConditionTrue | ConditionFalse | ConditionUnknown.

Global Instance ConditionStatus_eq_dec : EqDecision ConditionStatus.
Proof. solve_decision. Defined.

Record Condition := {
  cType : string;
  cStatus : ConditionStatus;
  cObservedGeneration : Z;
  cLastTransitionTime : Z;   (* 0 is Go's zero time *)
  cReason : string;
  cMessage : string;
}.

Global Instance Condition_eq_dec : EqDecision Condition.
Proof. solve_decision. Defined.

(** [meta.FindStatusCondition]: the first condition of the given type. *)
Fixpoint FindStatusCondition (conditions : list Condition) (conditionType : string)
  : option Condition :=
  match conditions with
  | [] => None
  | c :: rest =>
      if decide (cType c = conditionType) then Some c
      else FindStatusCondition rest conditionType
  end.

(** What [meta.SetStatusCondition] appends when no condition of the type
    exists yet: the new condition, stamped with the current time unless it
    carries a transition time of its own. *)
Definition stampCondition (now : Z) (newCondition : Condition) : Condition :=
  if decide (cLastTransitionTime newCondition = 0)
  then {| cType := cType newCondition;
          cStatus := cStatus newCondition;
          cObservedGeneration := cObservedGeneration newCondition;
          cLastTransitionTime := now;
          cReason := cReason newCondition;
          cMessage := cMessage newCondition |}
  else newCondition.

(** What [meta.SetStatusCondition] does to the existing condition of the same
    type: status and transition time change together, and only on a status
    change; reason, message and observed generation are always overwritten. *)
Definition mergeCondition (now : Z) (existing newCondition : Condition) : Condition :=
  let changed := bool_decide (cStatus existing ≠ cStatus newCondition) in
  {| cType := cType existing;
     cStatus := if changed then cStatus newCondition else cStatus existing;
     cObservedGeneration := cObservedGeneration newCondition;
     cLastTransitionTime :=
       if changed
       then (if decide (cLastTransitionTime newCondition = 0)
             then now else cLastTransitionTime newCondition)
       else cLastTransitionTime existing;
     cReason := cReason newCondition;
     cMessage := cMessage newCondition |}.

(** [meta.SetStatusCondition(conditions, newCondition)]: replace-by-type on the
    first condition of that type, append when there is none. The Go function
    writes through the slice pointer; here the new slice is returned. *)
Fixpoint SetStatusCondition (now : Z) (conditions : list Condition)
    (newCondition : Condition) : list Condition :=
  match conditions with
  | [] => [stampCondition now newCondition]
  | c :: rest =>
      if decide (cType c = cType newCondition)
      then mergeCondition now c newCondition :: rest
      else c :: SetStatusCondition now rest newCondition
  end.

(** ** Resources *)

(** Modelled from the spec: the engine's own origin marker
    ([types.OriginKubernetes]; the declaration is not among the sources). *)
Definition OriginKubernetes : string := "kubernetes".

(** [types.ResourceWithOrigin]: what the engine uses of a remote resource.
    [Origin] is the value of the origin label, empty when the label is absent. *)
Class ResourceWithOrigin (T : Type) := {
  GetName : T → string;
  Origin : T → string;
  SetOrigin : string → T → T;
  Origin_SetOrigin : ∀ o t, Origin (SetOrigin o t) = o;
  GetName_SetOrigin : ∀ o t, GetName (SetOrigin o t) = GetName t;
}.

(** [TeleportKubernetesResource[T]]: a Kubernetes object that converts to the
    remote resource and exposes its status conditions. [StatusConditions]
    returns a pointer in Go; writing through it is [SetStatusConditions]. *)
Class TeleportKubernetesResource (T K : Type) := {
  ObjectName : K → string;
  ToTeleport : K → T;
  StatusConditions : K → list Condition;
  SetStatusConditions : list Condition → K → K;
  StatusConditions_Set : ∀ cs k, StatusConditions (SetStatusConditions cs k) = cs;
}.

(** [kclient.Object] as handed to the engine: either a value of the expected
    type [K], or an object of another dynamic type (its type name is what
    [%T] prints). *)
Inductive Object (K : Type) :=
| IsK (k : K)
| NotK (typeName : string) (name : string).
Arguments IsK {K} k.
Arguments NotK {K} typeName name.

(** ** Condition builders *)

(** Modelled from the spec: the two condition kinds, [ownership] and
    [reconciliation]; the constants naming them are not among the sources. *)
Definition ConditionTypeOwnership : string := "ownership".
Definition ConditionTypeReconciliation : string := "reconciliation".

(** Modelled from the spec: [checkOwnership], which is called by [Upsert] but
    is not among the sources (spec, Ownership Arbiter). A missing resource is
    grantable (reason "new resource"), a resource carrying the engine's origin
    is grantable (reason "already owned"), any other origin is denied (reason
    "origin conflict", the message names the foreign origin) and comes with
    an ownership error. The function receives the fetched resource only. *)
Definition checkOwnership {T} `{ResourceWithOrigin T} (existingResource : option T)
  : Condition * option error :=
  match existingResource with
  | None =>
      ({| cType := ConditionTypeOwnership; cStatus := ConditionTrue;
          cObservedGeneration := 0; cLastTransitionTime := 0;
          cReason := "new resource"; cMessage := "" |}, None)
  | Some existing =>
      if decide (Origin existing = OriginKubernetes)
      then ({| cType := ConditionTypeOwnership; cStatus := ConditionTrue;
               cObservedGeneration := 0; cLastTransitionTime := 0;
               cReason := "already owned"; cMessage := "" |}, None)
      else ({| cType := ConditionTypeOwnership; cStatus := ConditionFalse;
               cObservedGeneration := 0; cLastTransitionTime := 0;
               cReason := "origin conflict";
               cMessage := "foreign origin: " +:+ Origin existing |},
            Some (Error OwnershipConflict
                    ("resource " +:+ GetName existing +:+ " is not owned by the operator")))
  end.

(** Modelled from the spec: [getReconciliationConditionFromError], not among
    the sources (spec, upsert path, step 5): true/success, or false/failure
    with the error's message. The function receives the error only. *)
Definition getReconciliationConditionFromError (err : option error) : Condition :=
  match err with
  | None =>
      {| cType := ConditionTypeReconciliation; cStatus := ConditionTrue;
         cObservedGeneration := 0; cLastTransitionTime := 0;
         cReason := "success"; cMessage := "" |}
  | Some e =>
      {| cType := ConditionTypeReconciliation; cStatus := ConditionFalse;
         cObservedGeneration := 0; cLastTransitionTime := 0;
         cReason := "failure"; cMessage := err_msg e |}
  end.

(** ** The engine's effects

    [B] is the state of everything outside the process: the Teleport backend,
    the Kubernetes API server, the clock. A computation of the engine maps a
    world to a result, the world it leaves behind and the calls it made. *)

Inductive Event (T K : Type) :=
| EvGet (name : string)
| EvCheckOwnership (existing : option T)
| EvCreate (resource : T)
| EvUpdate (resource : T)
| EvDelete (name : string)
| EvStatusUpdate (k8sResource : K)
| EvLogError (e : error).
Arguments EvGet {T K} name.
Arguments EvCheckOwnership {T K} existing.
Arguments EvCreate {T K} resource.
Arguments EvUpdate {T K} resource.
Arguments EvDelete {T K} name.
Arguments EvStatusUpdate {T K} k8sResource.
Arguments EvLogError {T K} e.

(** A call that mutates the remote backend. *)
Definition is_mutation {T K} (e : Event T K) : bool :=
  match e with EvCreate _ | EvUpdate _ | EvDelete _ => true | _ => false end.

(** A write of the object's status to the declarative store. *)
Definition is_status_persist {T K} (e : Event T K) : bool :=
  match e with EvStatusUpdate _ => true | _ => false end.

(** The evaluation of the ownership check. *)
Definition is_ownership_check {T K} (e : Event T K) : bool :=
  match e with EvCheckOwnership _ => true | _ => false end.

Module Eff.
Section Eff.
Context {B E : Type}.

Definition M (A : Type) : Type := B → A * B * list E.

Definition ret {A} (a : A) : M A := λ w, (a, w, []).

Definition bind {A C} (m : M A) (f : A → M C) : M C :=
  λ w, let '(a, w1, l1) := m w in
       let '(c, w2, l2) := f a w1 in
       (c, w2, l1 ++ l2).

(** record a call in the log *)
Definition tell (e : E) : M unit := λ w, (tt, w, [e]).

(** run an external call on the world *)
Definition lift {A} (f : B → A * B) : M A :=
  λ w, let '(a, w1) := f w in (a, w1, []).

(** read the world without changing it *)
Definition ask {A} (f : B → A) : M A := λ w, (f w, w, []).

Definition value {A} (r : A * B * list E) : A := r.1.1.
Definition world {A} (r : A * B * list E) : B := r.1.2.
Definition calls {A} (r : A * B * list E) : list E := r.2.
End Eff.
End Eff.

Global Instance Eff_ret {B E} : MRet (@Eff.M B E) := @Eff.ret B E.
Global Instance Eff_bind {B E} : MBind (@Eff.M B E) := λ A C f m, Eff.bind m f.

(** ** The generic reconciler *)

Section Engine.
Context {B T K : Type} `{ResourceWithOrigin T} `{TeleportKubernetesResource T K}.

(** [time.Now()], read by [meta.SetStatusCondition]. *)
Variable Now : B → Z.

Local Abbreviation M := (@Eff.M B (Event T K)).

(** The bound remote-client functions. A Go function returning [(T, error)]
    may return a nil resource, a nil error, both or neither. *)
Definition GetTeleportResourceFn := string → B → (option T * option error) * B.
Definition CreateTeleportResourceFn := T → B → option error * B.
Definition UpdateTeleportResourceFn := T → B → option error * B.
Definition DeleteTeleportResourceFn := string → B → option error * B.

(** What the engine uses of [kclient.Client]: [Status().Update(ctx, obj)]. *)
Record KubeClient := { StatusUpdate : K → B → option error * B }.

Record ResourceBaseReconciler := { Client : KubeClient }.

Record TeleportResourceReconciler := {
  Base : ResourceBaseReconciler;
  GetTeleportResource : GetTeleportResourceFn;
  UpdateTeleportResource : UpdateTeleportResourceFn;
  CreateTeleportResource : CreateTeleportResourceFn;
  DeleteTeleportResource : DeleteTeleportResourceFn;
}.

(** [NewTeleportResourceReconciler(client, get, update, create, delete)] *)
Definition NewTeleportResourceReconciler (client : KubeClient)
    (get : GetTeleportResourceFn) (update : UpdateTeleportResourceFn)
    (create : CreateTeleportResourceFn) (delete : DeleteTeleportResourceFn)
  : TeleportResourceReconciler :=
  {| Base := {| Client := client |};
     GetTeleportResource := get;
     UpdateTeleportResource := update;
     CreateTeleportResource := create;
     DeleteTeleportResource := delete |}.

(** The calls of the engine, each entered in the log before it runs. *)
Definition callGet (r : TeleportResourceReconciler) (name : string)
  : M (option T * option error) :=
  Eff.tell (EvGet name) ;; Eff.lift (GetTeleportResource r name).

Definition callCreate (r : TeleportResourceReconciler) (t : T) : M (option error) :=
  Eff.tell (EvCreate t) ;; Eff.lift (CreateTeleportResource r t).

Definition callUpdate (r : TeleportResourceReconciler) (t : T) : M (option error) :=
  Eff.tell (EvUpdate t) ;; Eff.lift (UpdateTeleportResource r t).

Definition callDelete (r : TeleportResourceReconciler) (name : string) : M (option error) :=
  Eff.tell (EvDelete name) ;; Eff.lift (DeleteTeleportResource r name).

(** [r.Status().Update(ctx, k8sResource)] *)
Definition statusUpdate (client : KubeClient) (k8sResource : K) : M (option error) :=
  Eff.tell (EvStatusUpdate k8sResource) ;; Eff.lift (StatusUpdate client k8sResource).

(** Modelled from the spec: [silentUpdateStatus], called by [Upsert] but not
    among the sources (spec, design notes: a status update whose error is
    logged and ignored). *)
Definition silentUpdateStatus (client : KubeClient) (k8sResource : K) : M unit :=
  statusErr ← statusUpdate client k8sResource;
  match statusErr with
  | Some e => Eff.tell (EvLogError e)
  | None => mret tt
  end.

(** [checkOwnership(existingResource)], entered in the log. *)
Definition runCheckOwnership (existingResource : option T)
  : M (Condition * option error) :=
  Eff.tell (EvCheckOwnership existingResource) ;;
  mret (checkOwnership existingResource).

(** [meta.SetStatusCondition(k8sResource.StatusConditions(), c)] *)
Definition setCondition (k8sResource : K) (c : Condition) : M K :=
  now ← Eff.ask Now;
  mret (SetStatusConditions
          (SetStatusCondition now (StatusConditions k8sResource) c) k8sResource).

(** [TeleportResourceReconciler.Upsert]. The result is the returned error
    together with the object as the pass leaves it in memory. *)
Definition Upsert (r : TeleportResourceReconciler) (obj : Object K)
  : M (option error * Object K) :=
  match obj with
  | NotK typeName _ =>
      mret (Errorf ("failed to convert Object into resource object: " +:+ typeName), obj)
  | IsK k8sResource =>
      let teleportResource := ToTeleport k8sResource in
      '(existingResource, err) ← callGet r (GetName teleportResource);
      if notnil err && negb (IsNotFound err)
      then mret (Wrap err, IsK k8sResource)
      else
        let exists_ := negb (IsNotFound err) in
        '(newOwnershipCondition, err) ← runCheckOwnership existingResource;
        (* Setting the condition before returning a potential ownership error *)
        k8sResource ← setCondition k8sResource newOwnershipCondition;
        if notnil err
        then silentUpdateStatus (Client (Base r)) k8sResource ;;
             mret (Wrap err, IsK k8sResource)
        else
        if notnil err
        then mret (Wrap err, IsK k8sResource)
        else
          let teleportResource := SetOrigin OriginKubernetes teleportResource in
          err ← (if negb exists_
                 then callCreate r teleportResource
                 else callUpdate r teleportResource);
          (* If an error happens we want to put it in status.conditions
             before returning. *)
          let newReconciliationCondition := getReconciliationConditionFromError err in
          k8sResource ← setCondition k8sResource newReconciliationCondition;
          if notnil err
          then silentUpdateStatus (Client (Base r)) k8sResource ;;
               mret (Wrap err, IsK k8sResource)
          else
            (* We update the status conditions on exit *)
            statusErr ← statusUpdate (Client (Base r)) k8sResource;
            mret (Wrap statusErr, IsK k8sResource)
  end.

(** [obj.GetName()] *)
Definition Object_GetName (obj : Object K) : string :=
  match obj with
  | IsK k => ObjectName k
  | NotK _ name => name
  end.

(** [TeleportResourceReconciler.Delete] *)
Definition Delete (r : TeleportResourceReconciler) (obj : Object K) : M (option error) :=
  callDelete r (Object_GetName obj).

End Engine.

(** ** Vocabulary for the statements about a pass *)

Section Pass.
Context {B T K : Type} `{ResourceWithOrigin T} `{TeleportKubernetesResource T K}.

(** The object after [meta.SetStatusCondition] on its conditions. *)
Definition withCondition (now : Z) (k8sResource : K) (c : Condition) : K :=
  SetStatusConditions (SetStatusCondition now (StatusConditions k8sResource) c) k8sResource.

(** The bound function that the mutation step runs. *)
Definition mutationCall (r : @TeleportResourceReconciler B T K) (exists_ : bool) (t : T)
  : B → option error * B :=
  if negb exists_ then CreateTeleportResource r t else UpdateTeleportResource r t.

Definition mutationEvent (exists_ : bool) (t : T) : Event T K :=
  if negb exists_ then EvCreate t else EvUpdate t.

(** What [silentUpdateStatus] leaves in the log after the write. *)
Definition logOf (statusErr : option error) : list (Event T K) :=
  match statusErr with
  | Some e => [EvLogError e]
  | None => []
  end.

(** The same reconciler working through another Kubernetes client. *)
Definition withClient (client : @KubeClient B K) (r : @TeleportResourceReconciler B T K)
  : @TeleportResourceReconciler B T K :=
  {| Base := {| Client := client |};
     GetTeleportResource := GetTeleportResource r;
     UpdateTeleportResource := UpdateTeleportResource r;
     CreateTeleportResource := CreateTeleportResource r;
     DeleteTeleportResource := DeleteTeleportResource r |}.

(** The primary result of an upsert pass, in the words of the spec: the
    error of the get call when it is not NotFound, else the ownership error,
    else the error of the create or update call. The status writer does not
    occur in it. *)
Definition primaryError (r : @TeleportResourceReconciler B T K) (k8sResource : K) (w : B)
  : option error :=
  let '((existingResource, getErr), w1) :=
    GetTeleportResource r (GetName (ToTeleport k8sResource)) w in
  if notnil getErr && negb (IsNotFound getErr) then getErr
  else
    match (checkOwnership existingResource).2 with
    | Some e => Some e
    | None =>
        (mutationCall r (negb (IsNotFound getErr))
           (SetOrigin OriginKubernetes (ToTeleport k8sResource)) w1).1
    end.

(** The conditions a pass leaves on the object once the get call is past:
    the object's conditions with the ownership verdict set, and, when the
    check raised no error, with the outcome of the mutating call set after
    it. [Now] is read at the world each [meta.SetStatusCondition] runs in. *)
Definition conditionsAfter (Now : B → Z) (r : @TeleportResourceReconciler B T K)
    (k8sResource : K) (existingResource : option T) (getErr : option error) (w1 : B)
  : list Condition :=
  let own := SetStatusCondition (Now w1) (StatusConditions k8sResource)
               (checkOwnership existingResource).1 in
  match (checkOwnership existingResource).2 with
  | Some _ => own
  | None =>
      let '(mutErr, w2) :=
        mutationCall r (negb (IsNotFound getErr))
          (SetOrigin OriginKubernetes (ToTeleport k8sResource)) w1 in
      SetStatusCondition (Now w2) own (getReconciliationConditionFromError mutErr)
  end.

(** Two conditions say the same about an outcome: same truth value, reason
    and message. *)
Definition sameVerdict (c d : Condition) : Prop :=
  cStatus c = cStatus d ∧ cReason c = cReason d ∧ cMessage c = cMessage d.

(** The conditions of an object record the verdict [c] under [c]'s type. *)
Definition records (k8sResource : K) (c : Condition) : Prop :=
  ∃ d, FindStatusCondition (StatusConditions k8sResource) (cType c) = Some d
       ∧ sameVerdict d c.
End Pass.

(** ** The connector adapters *)

Section Adapters.
Context {B : Type}.
Context {OIDCConnector SAMLConnector GithubConnector : Type}.
Context {TeleportOIDCConnector TeleportSAMLConnector TeleportGithubConnector : Type}.

(** What the adapters use of the Teleport API client. The client is not among
    the sources; its methods are arbitrary calls on the world. The boolean of
    the getters is [withSecrets]. *)
Record TeleportClient := {
  client_GetOIDCConnector : string → bool → B → (option OIDCConnector * option error) * B;
  client_UpsertOIDCConnector : OIDCConnector → B → option error * B;
  client_DeleteOIDCConnector : string → B → option error * B;
  client_GetSAMLConnector : string → bool → B → (option SAMLConnector * option error) * B;
  client_UpsertSAMLConnector : SAMLConnector → B → option error * B;
  client_DeleteSAMLConnector : string → B → option error * B;
  client_GetGithubConnector : string → bool → B → (option GithubConnector * option error) * B;
  client_UpsertGithubConnector : GithubConnector → B → option error * B;
  client_DeleteGithubConnector : string → B → option error * B;
}.

(** [sidecar.ClientAccessor]: hands out the client, or fails. *)
Definition ClientAccessor := B → (TeleportClient + error) * B.

(** The shape shared by the methods of the adapters: fetch the client,
    return the accessor's error wrapped, else make the call. *)
Definition withTeleportClient {A} (accessor : ClientAccessor) (onError : option error → A)
    (call : TeleportClient → B → A * B) : B → A * B :=
  λ w, match accessor w with
       | (inr err, w1) => (onError (Wrap (Some err)), w1)
       | (inl teleportClient, w1) => call teleportClient w1
       end.

(** *** OIDC *)

Record OIDCConnectorReconciler := {
  OIDC_TeleportResourceReconciler
    : @TeleportResourceReconciler B OIDCConnector TeleportOIDCConnector;
  OIDC_TeleportClientAccessor : ClientAccessor;
}.

Definition GetOIDCConnector (accessor : ClientAccessor) (name : string)
  : B → (option OIDCConnector * option error) * B :=
  withTeleportClient accessor (λ err, (None, err))
    (λ teleportClient, client_GetOIDCConnector teleportClient name false).

Definition UpsertOIDCConnector (accessor : ClientAccessor) (oidc : OIDCConnector)
  : B → option error * B :=
  withTeleportClient accessor (λ err, err)
    (λ teleportClient, client_UpsertOIDCConnector teleportClient oidc).

Definition DeleteOIDCConnector (accessor : ClientAccessor) (name : string)
  : B → option error * B :=
  withTeleportClient accessor (λ err, err)
    (λ teleportClient, client_DeleteOIDCConnector teleportClient name).

Definition NewOIDCConnectorReconciler (client : @KubeClient B TeleportOIDCConnector)
    (accessor : ClientAccessor) : OIDCConnectorReconciler :=
  let resourceReconciler :=
    NewTeleportResourceReconciler client
      (GetOIDCConnector accessor)
      (UpsertOIDCConnector accessor)
      (UpsertOIDCConnector accessor)
      (DeleteOIDCConnector accessor) in
  {| OIDC_TeleportResourceReconciler := resourceReconciler;
     OIDC_TeleportClientAccessor := accessor |}.

(** *** SAML *)

Record SAMLConnectorReconciler := {
  SAML_TeleportResourceReconciler
    : @TeleportResourceReconciler B SAMLConnector TeleportSAMLConnector;
  SAML_TeleportClientAccessor : ClientAccessor;
}.

Definition GetSAMLConnector (accessor : ClientAccessor) (name : string)
  : B → (option SAMLConnector * option error) * B :=
  withTeleportClient accessor (λ err, (None, err))
    (λ teleportClient, client_GetSAMLConnector teleportClient name false).

Definition UpsertSAMLConnector (accessor : ClientAccessor) (saml : SAMLConnector)
  : B → option error * B :=
  withTeleportClient accessor (λ err, err)
    (λ teleportClient, client_UpsertSAMLConnector teleportClient saml).

Definition DeleteSAMLConnector (accessor : ClientAccessor) (name : string)
  : B → option error * B :=
  withTeleportClient accessor (λ err, err)
    (λ teleportClient, client_DeleteSAMLConnector teleportClient name).

Definition NewSAMLConnectorReconciler (client : @KubeClient B TeleportSAMLConnector)
    (accessor : ClientAccessor) : SAMLConnectorReconciler :=
  let resourceReconciler :=
    NewTeleportResourceReconciler client
      (GetSAMLConnector accessor)
      (UpsertSAMLConnector accessor)
      (UpsertSAMLConnector accessor)
      (DeleteSAMLConnector accessor) in
  {| SAML_TeleportResourceReconciler := resourceReconciler;
     SAML_TeleportClientAccessor := accessor |}.

(** *** GitHub *)

Record GithubConnectorReconciler := {
  Github_TeleportResourceReconciler
    : @TeleportResourceReconciler B GithubConnector TeleportGithubConnector;
  Github_TeleportClientAccessor : ClientAccessor;
}.

Definition GetGithubConnector (accessor : ClientAccessor) (name : string)
  : B → (option GithubConnector * option error) * B :=
  withTeleportClient accessor (λ err, (None, err))
    (λ teleportClient, client_GetGithubConnector teleportClient name false).

Definition UpsertGithubConnector (accessor : ClientAccessor) (github : GithubConnector)
  : B → option error * B :=
  withTeleportClient accessor (λ err, err)
    (λ teleportClient, client_UpsertGithubConnector teleportClient github).

Definition DeleteGithubConnector (accessor : ClientAccessor) (name : string)
  : B → option error * B :=
  withTeleportClient accessor (λ err, err)
    (λ teleportClient, client_DeleteGithubConnector teleportClient name).

Definition NewGithubConnectorReconciler (client : @KubeClient B TeleportGithubConnector)
    (accessor : ClientAccessor) : GithubConnectorReconciler :=
  let resourceReconciler :=
    NewTeleportResourceReconciler client
      (GetGithubConnector accessor)
      (UpsertGithubConnector accessor)
      (UpsertGithubConnector accessor)
      (DeleteGithubConnector accessor) in
  {| Github_TeleportResourceReconciler := resourceReconciler;
     Github_TeleportClientAccessor := accessor |}.

End Adapters.

(** ** A simulated cluster

    A concrete world on which the engine runs: a Teleport backend holding
    connectors by name, the status subresource of the Kubernetes objects, a
    clock, and faults that make the calls of a kind fail. *)

Module Sim.

(** The remote resource: a connector with its origin label. *)
Record Connector := {
  conn_name : string;
  conn_issuer : string;
  conn_redirect : list string;
  conn_origin : string;
}.

Global Instance Connector_eq_dec : EqDecision Connector.
Proof. solve_decision. Defined.

Global Program Instance Connector_resource : ResourceWithOrigin Connector := {|
  GetName := conn_name;
  Origin := conn_origin;
  SetOrigin o c := {| conn_name := conn_name c; conn_issuer := conn_issuer c;
                      conn_redirect := conn_redirect c; conn_origin := o |};
|}.
Solve All Obligations with done.

(** The declarative object. *)
Record TeleportConnector := {
  meta_name : string;
  meta_generation : Z;
  spec_issuer : string;
  spec_redirect : list string;
  status_conditions : list Condition;
}.

Global Program Instance TeleportConnector_k8s
  : TeleportKubernetesResource Connector TeleportConnector := {|
  ObjectName := meta_name;
  ToTeleport k := {| conn_name := meta_name k; conn_issuer := spec_issuer k;
                     conn_redirect := spec_redirect k; conn_origin := "" |};
  StatusConditions := status_conditions;
  SetStatusConditions cs k :=
    {| meta_name := meta_name k; meta_generation := meta_generation k;
       spec_issuer := spec_issuer k; spec_redirect := spec_redirect k;
       status_conditions := cs |};
|}.
Solve All Obligations with done.

Record Cluster := {
  teleport : gmap string Connector;
  kube_status : gmap string (list Condition);
  get_fault : option error;
  write_fault : option error;
  delete_fault : option error;
  status_fault : option error;
  clock : Z;
}.

Definition set_teleport (m : gmap string Connector) (w : Cluster) : Cluster :=
  {| teleport := m; kube_status := kube_status w; get_fault := get_fault w;
     write_fault := write_fault w; delete_fault := delete_fault w;
     status_fault := status_fault w; clock := clock w |}.

Definition set_kube_status (m : gmap string (list Condition)) (w : Cluster) : Cluster :=
  {| teleport := teleport w; kube_status := m; get_fault := get_fault w;
     write_fault := write_fault w; delete_fault := delete_fault w;
     status_fault := status_fault w; clock := clock w |}.

Definition notFound (name : string) : error :=
  Error NotFound ("connector " +:+ name +:+ " not found").

Definition get (name : string) (w : Cluster) : (option Connector * option error) * Cluster :=
  match get_fault w with
  | Some e => ((None, Some e), w)
  | None =>
      match teleport w !! name with
      | Some c => ((Some c, None), w)
      | None => ((None, Some (notFound name)), w)
      end
  end.

Definition upsert (c : Connector) (w : Cluster) : option error * Cluster :=
  match write_fault w with
  | Some e => (Some e, w)
  | None => (None, set_teleport (<[conn_name c := c]> (teleport w)) w)
  end.

Definition delete (name : string) (w : Cluster) : option error * Cluster :=
  match delete_fault w with
  | Some e => (Some e, w)
  | None =>
      match teleport w !! name with
      | Some _ => (None, set_teleport (base.delete name (teleport w)) w)
      | None => (Some (notFound name), w)
      end
  end.

Definition kube : @KubeClient Cluster TeleportConnector :=
  {| StatusUpdate k w :=
       match status_fault w with
       | Some e => (Some e, w)
       | None =>
           (None, set_kube_status (<[meta_name k := status_conditions k]> (kube_status w)) w)
       end |}.

Definition reconciler : @TeleportResourceReconciler Cluster Connector TeleportConnector :=
  NewTeleportResourceReconciler kube get upsert upsert delete.

(** The scenario of the spec: connector "conn-a", absent from Teleport. *)
Definition conn_a : TeleportConnector :=
  {| meta_name := "conn-a"; meta_generation := 1;
     spec_issuer := "https://issuer"; spec_redirect := ["https://redirect"];
     status_conditions := [] |}.

Definition empty_cluster : Cluster :=
  {| teleport := ∅; kube_status := ∅; get_fault := None; write_fault := None;
     delete_fault := None; status_fault := None; clock := 1000 |}.

(** A connector of the same name that somebody configured by hand. *)
Definition manual_conn_a : Connector :=
  {| conn_name := "conn-a"; conn_issuer := "https://other";
     conn_redirect := []; conn_origin := "config-file" |}.

Definition foreign_cluster : Cluster :=
  set_teleport {[ "conn-a" := manual_conn_a ]} empty_cluster.

Definition unavailable : error := Error OtherError "backend unavailable".
Definition conflict : error := Error OtherError "status write conflict".

Definition with_get_fault (e : error) (w : Cluster) : Cluster :=
  {| teleport := teleport w; kube_status := kube_status w; get_fault := Some e;
     write_fault := write_fault w; delete_fault := delete_fault w;
     status_fault := status_fault w; clock := clock w |}.

Definition with_write_fault (e : error) (w : Cluster) : Cluster :=
  {| teleport := teleport w; kube_status := kube_status w; get_fault := get_fault w;
     write_fault := Some e; delete_fault := delete_fault w;
     status_fault := status_fault w; clock := clock w |}.

Definition with_status_fault (e : error) (w : Cluster) : Cluster :=
  {| teleport := teleport w; kube_status := kube_status w; get_fault := get_fault w;
     write_fault := write_fault w; delete_fault := delete_fault w;
     status_fault := Some e; clock := clock w |}.

(** "conn-a" after a pass that synced it: both conditions true. *)
Definition conn_a_synced : TeleportConnector :=
  {| meta_name := "conn-a"; meta_generation := 1;
     spec_issuer := "https://issuer"; spec_redirect := ["https://redirect"];
     status_conditions :=
       [ {| cType := ConditionTypeOwnership; cStatus := ConditionTrue;
            cObservedGeneration := 0; cLastTransitionTime := 900;
            cReason := "new resource"; cMessage := "" |};
         {| cType := ConditionTypeReconciliation; cStatus := ConditionTrue;
            cObservedGeneration := 0; cLastTransitionTime := 900;
            cReason := "success"; cMessage := "" |} ] |}.

(** "conn-a" after an edit of its spec: the generation is bumped. *)
Definition conn_a_edited : TeleportConnector :=
  {| meta_name := "conn-a"; meta_generation := 2;
     spec_issuer := "https://issuer";
     spec_redirect := ["https://redirect"; "https://redirect2"];
     status_conditions := [] |}.

(** The conditions of the object that a pass leaves. *)
Definition conditions_of (obj : Object TeleportConnector) : list Condition :=
  match obj with
  | IsK k => status_conditions k
  | NotK _ _ => []
  end.

(** An object of another type that reaches the engine under the same name. *)
Definition config_map : Object TeleportConnector := NotK "*v1.ConfigMap" "conn-a".

Definition upsert_pass (obj : Object TeleportConnector) (w : Cluster) :=
  Upsert clock reconciler obj w.

Definition delete_pass (obj : Object TeleportConnector) (w : Cluster) :=
  Delete reconciler obj w.

End Sim.

(** ** The calls of a pass by kind *)

(** A call of the bound get function. *)
Definition is_get {T K} (e : Event T K) : bool :=
  match e with EvGet _ => true | _ => false end.

(** A call of the bound delete function. *)
Definition is_delete {T K} (e : Event T K) : bool :=
  match e with EvDelete _ => true | _ => false end.

(** How many calls of a kind a log holds. *)
Definition count {T K} (kind : Event T K → bool) (log : list (Event T K)) : nat :=
  length (List.filter kind log).

(** The conditions already say what [c] says: the first condition of [c]'s
    type has its truth value, reason, message and observed generation. *)
Definition agrees (conditions : list Condition) (c : Condition) : Prop :=
  ∃ d, FindStatusCondition conditions (cType c) = Some d
       ∧ cStatus d = cStatus c ∧ cReason d = cReason c ∧ cMessage d = cMessage c
       ∧ cObservedGeneration d = cObservedGeneration c.

(** The outcome [pass] is that of a pass which, from the world [w1] its get
    call left, found no resource and ran the create branch: the bound create
    function was run once on the stamped resource in [w1], the status writer
    was run on the object the pass leaves in the world the create function
    left, the pass returns the error of the create function or, when that is
    nil, the result of the status write, and these are all its calls. *)
Definition ranCreate {B T K : Type} `{ResourceWithOrigin T} `{TeleportKubernetesResource T K}
    (r : @TeleportResourceReconciler B T K) (k : K) (w1 : B)
    (pass : (option error * Object K) * B * list (Event T K)) : Prop :=
  let t := SetOrigin OriginKubernetes (ToTeleport k) in
  ∃ k2 statusErr,
    StatusUpdate (Client (Base r)) k2 (CreateTeleportResource r t w1).2
    = (statusErr, Eff.world pass)
    ∧ Eff.value pass
      = (match (CreateTeleportResource r t w1).1 with
         | Some e => Some e
         | None => statusErr
         end, IsK k2)
    ∧ Eff.calls pass
      = [EvGet (GetName (ToTeleport k)); EvCheckOwnership None; EvCreate t;
         EvStatusUpdate k2]
        ++ match (CreateTeleportResource r t w1).1 with
           | Some _ => logOf statusErr
           | None => []
           end.

(** ** Adapters on the simulated cluster

    The three connector kinds all stored as [Sim.Connector]s, served by one
    Teleport client over the simulated backend. *)

Module SimAdapters.

Definition client
  : @TeleportClient Sim.Cluster Sim.Connector Sim.Connector Sim.Connector :=
  {| client_GetOIDCConnector name _ := Sim.get name;
     client_UpsertOIDCConnector := Sim.upsert;
     client_DeleteOIDCConnector := Sim.delete;
     client_GetSAMLConnector name _ := Sim.get name;
     client_UpsertSAMLConnector := Sim.upsert;
     client_DeleteSAMLConnector := Sim.delete;
     client_GetGithubConnector name _ := Sim.get name;
     client_UpsertGithubConnector := Sim.upsert;
     client_DeleteGithubConnector := Sim.delete |}.

(** An accessor that hands out the client. *)
Definition ready
  : @ClientAccessor Sim.Cluster Sim.Connector Sim.Connector Sim.Connector :=
  λ w, (inl client, w).

(** An accessor that fails with the given error. *)
Definition broken (e : error)
  : @ClientAccessor Sim.Cluster Sim.Connector Sim.Connector Sim.Connector :=
  λ w, (inr e, w).

Definition not_connected : error := Error OtherError "teleport client not ready".
Definition no_identity : error := Error NotFound "identity file not found".

Definition oidc (accessor : @ClientAccessor Sim.Cluster Sim.Connector Sim.Connector Sim.Connector)
  : @TeleportResourceReconciler Sim.Cluster Sim.Connector Sim.TeleportConnector :=
  OIDC_TeleportResourceReconciler (NewOIDCConnectorReconciler Sim.kube accessor).

(** "conn-a" carrying a condition that another controller maintains. *)
Definition conn_a_ready : Sim.TeleportConnector :=
  {| Sim.meta_name := "conn-a"; Sim.meta_generation := 1;
     Sim.spec_issuer := "https://issuer"; Sim.spec_redirect := ["https://redirect"];
     Sim.status_conditions :=
       [ {| cType := "Ready"; cStatus := ConditionTrue;
            cObservedGeneration := 1; cLastTransitionTime := 800;
            cReason := "Checked"; cMessage := "set elsewhere" |};
         {| cType := ConditionTypeReconciliation; cStatus := ConditionTrue;
            cObservedGeneration := 0; cLastTransitionTime := 900;
            cReason := "success"; cMessage := "" |} ] |}.

(** "conn-a" as the second pass after its creation leaves it, and the
    cluster in which the engine's own "conn-a" exists. *)
Definition conn_a_settled : Sim.TeleportConnector :=
  {| Sim.meta_name := "conn-a"; Sim.meta_generation := 1;
     Sim.spec_issuer := "https://issuer"; Sim.spec_redirect := ["https://redirect"];
     Sim.status_conditions :=
       [ {| cType := ConditionTypeOwnership; cStatus := ConditionTrue;
            cObservedGeneration := 0; cLastTransitionTime := 900;
            cReason := "already owned"; cMessage := "" |};
         {| cType := ConditionTypeReconciliation; cStatus := ConditionTrue;
            cObservedGeneration := 0; cLastTransitionTime := 900;
            cReason := "success"; cMessage := "" |} ] |}.

Definition own_conn_a : Sim.Connector :=
  {| Sim.conn_name := "conn-a"; Sim.conn_issuer := "https://issuer";
     Sim.conn_redirect := ["https://redirect"]; Sim.conn_origin := OriginKubernetes |}.

Definition owned_cluster : Sim.Cluster :=
  Sim.set_teleport {[ "conn-a" := own_conn_a ]} Sim.empty_cluster.

End SimAdapters.

(** ** YubiKey PIV private keys (api/utils/keys)

    The hardware-key side of the client: finding a YubiKey, reusing or
    generating a private key in a PIV slot, and the policy a key reports.
    The PIV library, the random source and the certificate, JSON and PEM
    encoders are outside the repository: the calls that reach the card are
    state transformers over a world [D], the encoders are functions, and both
    are handed to the code as records. Every call that opens or closes a
    connection to the card, generates a key or stores a certificate is
    entered in a log. *)

Module YubiKey.

(** [piv.Slot] *)
Record Slot := { Key : N; Object : N }.

Global Instance Slot_eq_dec : EqDecision Slot.
Proof. solve_decision. Defined.

(** The four standard slots of the PIV library and its table of retired key
    management slots (keys 0x82 to 0x95). *)
Definition SlotAuthentication : Slot := {| Key := 0x9a; Object := 0x5fc105 |}.
Definition SlotSignature : Slot := {| Key := 0x9c; Object := 0x5fc10a |}.
Definition SlotCardAuthentication : Slot := {| Key := 0x9e; Object := 0x5fc101 |}.
Definition SlotKeyManagement : Slot := {| Key := 0x9d; Object := 0x5fc10b |}.

(** [piv.RetiredKeyManagementSlot(key)]: the slot and whether it exists. *)
Definition RetiredKeyManagementSlot (key : N) : option Slot :=
  if ((0x82 <=? key) && (key <=? 0x95))%N
  then Some {| Key := key; Object := 0x5fc10d + (key - 0x82) |}
  else None.

(** [piv.TouchPolicy], [piv.PINPolicy], [piv.Algorithm] and [piv.Key] *)
Inductive TouchPolicy := TouchPolicyNever | TouchPolicyAlways | TouchPolicyCached.
Inductive PINPolicy := PINPolicyNever | PINPolicyOnce | PINPolicyAlways.
Inductive Algorithm := AlgorithmEC256 | AlgorithmEC384 | AlgorithmEd25519
                     | AlgorithmRSA1024 | AlgorithmRSA2048.
Record KeyOptions := {
  opt_Algorithm : Algorithm;
  opt_PINPolicy : PINPolicy;
  opt_TouchPolicy : TouchPolicy;
}.

Global Instance TouchPolicy_eq_dec : EqDecision TouchPolicy.
Proof. solve_decision. Defined.

(** [PrivateKeyPolicy]; its three constants are declared outside the
    sources and are taken to be distinct. *)
Inductive PrivateKeyPolicy :=
| PrivateKeyPolicyNone
| PrivateKeyPolicyHardwareKey
| PrivateKeyPolicyHardwareKeyTouch.

(** We use slot 9a for clients which require [hardware_key], and slot 9c for
    clients which require [hardware_key_touch]. *)
Definition pivSlotNoTouch : Slot := SlotAuthentication.
Definition pivSlotWithTouch : Slot := SlotSignature.

(** [PIVCardTypeYubiKey] and [certOrgName] *)
Definition PIVCardTypeYubiKey : string := "yubikey".
Definition certOrgName : string := "teleport".

(** [strings.Contains] on byte strings. *)
Fixpoint Contains (s substr : string) : bool :=
  if String.prefix substr s then true
  else match s with
       | EmptyString => false
       | String _ rest => Contains rest substr
       end.

(** [isRetryError] *)
Definition isRetryError (err : error) : bool :=
  Contains (err_msg err)
    "connecting to smart card: the smart card cannot be accessed because of other connections outstanding".

(** [trace.NotFound] and [trace.BadParameter]; only NotFound is told apart
    from the other classes. *)
Definition NotFoundError (msg : string) : error := Error NotFound msg.
Definition BadParameter (msg : string) : error := Error OtherError msg.

(** [yubiKey]: a card by reader name, with its serial number. *)
Record yubiKey := { card : string; serialNumber : N }.

(** [yubiKeyPrivateKeyData]: what is marshalled to find a key again. *)
Record yubiKeyPrivateKeyData := { SerialNumber : N; SlotKey : N }.

(** What is logged of the traffic with the card. *)
Inductive PivEvent :=
| EvOpened (card : string)
| EvOpenFailed (card : string)
| EvClosed (card : string)
| EvGenerateKey (slot : Slot) (opts : KeyOptions)
| EvSetCertificate (slot : Slot).

Section Keys.
Context {D Conn Pub Priv Statement PrivateKey : Type}.

(** [x509.Certificate], the fields the code reads or writes. *)
Record Certificate := {
  cert_SerialNumber : N;
  cert_PublicKey : Pub;
  cert_Organization : list string;
  cert_OrganizationalUnit : list string;
  cert_Raw : list N;
}.

(** [YubiKeyPrivateKey] *)
Record YubiKeyPrivateKey := {
  key_yubiKey : yubiKey;
  key_pivSlot : Slot;
  key_pub : Pub;
}.

(** The calls that reach the card or the random source. [dev_open] is
    [yubiKey.open]: [piv.Open] under its retry loop, taken as one call.
    [Close] returns an error that every caller drops. [priv_Sign] signs a
    digest under signer options, given by their hash function. *)
Record Device := {
  piv_Cards : D → (list string + error) * D;
  dev_open : string → D → (Conn + error) * D;
  yk_Close : Conn → D → D;
  yk_Serial : Conn → D → (N + error) * D;
  yk_Certificate : Conn → Slot → D → (option Certificate * option error) * D;
  yk_GenerateKey : Conn → Slot → KeyOptions → D → (Pub + error) * D;
  yk_PrivateKey : Conn → Slot → Pub → D → (Priv + error) * D;
  yk_SetCertificate : Conn → Slot → Certificate → D → option error * D;
  yk_Attest : Conn → Slot → D → (Certificate + error) * D;
  yk_AttestationCertificate : Conn → D → (Certificate + error) * D;
  priv_Sign : Priv → list N → N → D → (list N + error) * D;
  rand_Int : N → D → (N + error) * D;
  x509_CreateCertificate : Certificate → Pub → Priv → D → (list N + error) * D;
}.

(** The encoders and the declarations of the package that are not among the
    sources. [fmt_slot], [fmt_serial] and [fmt_cert] render the arguments of
    the error messages ([fmt_cert] with the line break before it). *)
Record Library := {
  json_Marshal : yubiKeyPrivateKeyData → list N + error;
  json_Unmarshal : list N → yubiKeyPrivateKeyData + error;
  pem_EncodeToMemory : string → list N → list N;
  pivYubiKeyPrivateKeyType : string;
  api_Version : string;
  strings_ToLower : string → string;
  NewPrivateKey : YubiKeyPrivateKey → list N → PrivateKey + error;
  newStatement : list N → list N → Statement;
  fmt_slot : N → string;
  fmt_serial : N → string;
  fmt_cert : Certificate → string;
}.

Variable dev : Device.
Variable lib : Library.

Local Abbreviation M := (@Eff.M D PivEvent).

(** [trace.Wrap] on the error of a result. *)
Definition wrapErr {A} (err : error) : A + error := inr err.

(** [parsePIVSlot]: the slot for a key, or the zero slot and an error. *)
Definition parsePIVSlot (slotKey : N) : Slot * option error :=
  if decide (slotKey = Key SlotAuthentication) then (SlotAuthentication, None)
  else if decide (slotKey = Key SlotSignature) then (SlotSignature, None)
  else if decide (slotKey = Key SlotCardAuthentication) then (SlotCardAuthentication, None)
  else if decide (slotKey = Key SlotKeyManagement) then (SlotKeyManagement, None)
  else
    match RetiredKeyManagementSlot slotKey with
    | None =>
        ({| Key := 0; Object := 0 |},
         Some (BadParameter ("slot " +:+ fmt_slot lib slotKey +:+ " does not exist")))
    | Some retiredSlot => (retiredSlot, None)
    end.

(** [YubiKeyPrivateKey.GetPrivateKeyPolicy] *)
Definition GetPrivateKeyPolicy (k : YubiKeyPrivateKey) : PrivateKeyPolicy :=
  if decide (key_pivSlot k = pivSlotNoTouch) then PrivateKeyPolicyHardwareKey
  else if decide (key_pivSlot k = pivSlotWithTouch) then PrivateKeyPolicyHardwareKeyTouch
  else PrivateKeyPolicyNone.

(** [YubiKeyPrivateKey.Public] *)
Definition Public (y : YubiKeyPrivateKey) : Pub := key_pub y.

(** [newYubiKeyPrivateKey]; it never fails. *)
Definition newYubiKeyPrivateKey (y : yubiKey) (slot : Slot) (pub : Pub)
  : YubiKeyPrivateKey + error :=
  inl {| key_yubiKey := y; key_pivSlot := slot; key_pub := pub |}.

(** [y.open()], with its outcome entered in the log. *)
Definition open (y : yubiKey) : M (Conn + error) :=
  r ← Eff.lift (dev_open dev (card y));
  Eff.tell (match r with
            | inl _ => EvOpened (card y)
            | inr _ => EvOpenFailed (card y)
            end) ;;
  mret r.

(** [yk.Close()] *)
Definition close (y : yubiKey) (conn : Conn) : M unit :=
  Eff.tell (EvClosed (card y)) ;;
  Eff.lift (λ w, (tt, yk_Close dev conn w)).

(** [defer yk.Close()] around the rest of a function. *)
Definition deferClose {A} (y : yubiKey) (conn : Conn) (body : M A) : M A :=
  r ← body; close y conn ;; mret r.

(** [newYubiKey] *)
Definition newYubiKey (cardName : string) : M (yubiKey + error) :=
  let y := {| card := cardName; serialNumber := 0 |} in
  opened ← open y;
  match opened with
  | inr err => mret (wrapErr err)
  | inl yk =>
      deferClose y yk (
        serial ← Eff.lift (yk_Serial dev yk);
        match serial with
        | inr err => mret (wrapErr err)
        | inl sn => mret (inl {| card := cardName; serialNumber := sn |})
        end)
  end.

(** [findYubiKeyCards] *)
Definition findYubiKeyCards : M (list string + error) :=
  cards ← Eff.lift (piv_Cards dev);
  match cards with
  | inr err => mret (wrapErr err)
  | inl cards =>
      mret (inl (foldl (λ yubiKeyCards cardName,
                          if Contains (strings_ToLower lib cardName) PIVCardTypeYubiKey
                          then yubiKeyCards ++ [cardName]
                          else yubiKeyCards)
                   [] cards))
  end.

(** The loop of [findYubiKey] over the cards that are left. *)
Fixpoint findYubiKeyLoop (serial : N) (yubiKeyCards : list string) : M (yubiKey + error) :=
  match yubiKeyCards with
  | [] =>
      mret (inr (NotFoundError
                   ("no yubiKey device found with serial number " +:+ fmt_serial lib serial)))
  | cardName :: rest =>
      y ← newYubiKey cardName;
      match y with
      | inr err => mret (wrapErr err)
      | inl y =>
          if bool_decide (serial = 0%N) || bool_decide (serialNumber y = serial)
          then mret (inl y)
          else findYubiKeyLoop serial rest
      end
  end.

(** [findYubiKey] *)
Definition findYubiKey (serial : N) : M (yubiKey + error) :=
  yubiKeyCards ← findYubiKeyCards;
  match yubiKeyCards with
  | inr err => mret (wrapErr err)
  | inl yubiKeyCards =>
      if decide (length yubiKeyCards = 0%nat)
      then mret (inr (NotFoundError "no yubiKey devices found"))
      else findYubiKeyLoop serial yubiKeyCards
  end.

(** [yubiKey.getPrivateKey] *)
Definition getPrivateKey (y : yubiKey) (slot : Slot) : M (YubiKeyPrivateKey + error) :=
  opened ← open y;
  match opened with
  | inr err => mret (wrapErr err)
  | inl yk =>
      deferClose y yk (
        '(cert, err) ← Eff.lift (yk_Certificate dev yk slot);
        match err, cert with
        | Some _, _ | _, None =>
            mret (inr (NotFoundError
                         "YubiKey certificate slot is empty, expected a Teleport Client cert"))
        | None, Some cert =>
            if bool_decide (length (cert_Organization cert) = 0%nat)
               || negb (bool_decide (head (cert_Organization cert) = Some certOrgName))
            then mret (inr (NotFoundError
                              ("YubiKey certificate slot contained unknown certificate:"
                               +:+ fmt_cert lib cert)))
            else mret (newYubiKeyPrivateKey y slot (cert_PublicKey cert))
        end)
  end.

(** [selfSignedTeleportClientCertificate] *)
Definition selfSignedTeleportClientCertificate (priv : Priv) (pub : Pub)
  : M (Certificate + error) :=
  let serialNumberLimit := N.shiftl 1 128 in
  serial ← Eff.lift (rand_Int dev serialNumberLimit);
  match serial with
  | inr err => mret (wrapErr err)
  | inl serial =>
      let cert := {| cert_SerialNumber := serial;
                     cert_PublicKey := pub;
                     cert_Organization := [certOrgName];
                     cert_OrganizationalUnit := [api_Version lib];
                     cert_Raw := [] |} in
      raw ← Eff.lift (x509_CreateCertificate dev cert pub priv);
      match raw with
      | inr err => mret (wrapErr err)
      | inl raw =>
          mret (inl {| cert_SerialNumber := serial;
                       cert_PublicKey := pub;
                       cert_Organization := [certOrgName];
                       cert_OrganizationalUnit := [api_Version lib];
                       cert_Raw := raw |})
      end
  end.

(** [yubiKey.generatePrivateKey]. The prompt for touch that is scheduled for
    the slot with touch writes to the terminal after a delay and is not part
    of the model. *)
Definition generatePrivateKey (y : yubiKey) (slot : Slot) (touchPolicy : TouchPolicy)
  : M (YubiKeyPrivateKey + error) :=
  opened ← open y;
  match opened with
  | inr err => mret (wrapErr err)
  | inl yk =>
      deferClose y yk (
        let opts := {| opt_Algorithm := AlgorithmEC256;
                       opt_PINPolicy := PINPolicyNever;
                       opt_TouchPolicy := touchPolicy |} in
        Eff.tell (EvGenerateKey slot opts) ;;
        pub ← Eff.lift (yk_GenerateKey dev yk slot opts);
        match pub with
        | inr err => mret (wrapErr err)
        | inl pub =>
            priv ← Eff.lift (yk_PrivateKey dev yk slot pub);
            match priv with
            | inr err => mret (wrapErr err)
            | inl priv =>
                cert ← selfSignedTeleportClientCertificate priv pub;
                match cert with
                | inr err => mret (wrapErr err)
                | inl cert =>
                    Eff.tell (EvSetCertificate slot) ;;
                    err ← Eff.lift (yk_SetCertificate dev yk slot cert);
                    match err with
                    | Some err => mret (wrapErr err)
                    | None => mret (newYubiKeyPrivateKey y slot pub)
                    end
                end
            end
        end)
  end.

(** [YubiKeyPrivateKey.keyPEM] *)
Definition keyPEM (y : YubiKeyPrivateKey) : list N + error :=
  match json_Marshal lib {| SerialNumber := serialNumber (key_yubiKey y);
                            SlotKey := Key (key_pivSlot y) |} with
  | inr err => wrapErr err
  | inl keyDataBytes =>
      inl (pem_EncodeToMemory lib (pivYubiKeyPrivateKeyType lib) keyDataBytes)
  end.

(** The PIV slot and the touch policy for a touch requirement. *)
Definition slotFor (touchRequired : bool) : Slot :=
  if touchRequired then pivSlotWithTouch else pivSlotNoTouch.

Definition touchPolicyFor (touchRequired : bool) : TouchPolicy :=
  if touchRequired then TouchPolicyCached else TouchPolicyNever.

(** [getOrGenerateYubiKeyPrivateKey] *)
Definition getOrGenerateYubiKeyPrivateKey (touchRequired : bool) : M (PrivateKey + error) :=
  (* Use the first yubiKey we find. *)
  y ← findYubiKey 0;
  match y with
  | inr err => mret (wrapErr err)
  | inl y =>
      let pivSlot := slotFor touchRequired in
      let touchPolicy := touchPolicyFor touchRequired in
      (* First, check if there is already a private key set up by a client. *)
      priv ← getPrivateKey y pivSlot;
      priv ← match priv with
             | inl priv => mret (inl priv)
             | inr _ =>
                 (* Generate a new private key on the PIV slot. *)
                 generatePrivateKey y pivSlot touchPolicy
             end;
      match priv with
      | inr err => mret (wrapErr err)
      | inl priv =>
          match keyPEM priv with
          | inr err => mret (wrapErr err)
          | inl keyPEM => mret (NewPrivateKey lib priv keyPEM)
          end
      end
  end.

(** [parseYubiKeyPrivateKeyData] *)
Definition parseYubiKeyPrivateKeyData (keyDataBytes : list N)
  : M (YubiKeyPrivateKey + error) :=
  match json_Unmarshal lib keyDataBytes with
  | inr err => mret (wrapErr err)
  | inl keyData =>
      let '(pivSlot, err) := parsePIVSlot (SlotKey keyData) in
      match err with
      | Some err => mret (wrapErr err)
      | None =>
          y ← findYubiKey (SerialNumber keyData);
          match y with
          | inr err => mret (wrapErr err)
          | inl y =>
              priv ← getPrivateKey y pivSlot;
              match priv with
              | inr err => mret (wrapErr err)
              | inl priv => mret (inl priv)
              end
          end
      end
  end.

(** [YubiKeyPrivateKey.Sign]; the prompt for touch is not part of the
    model. *)
Definition Sign (y : YubiKeyPrivateKey) (digest : list N) (opts : N)
  : M (list N + error) :=
  opened ← open (key_yubiKey y);
  match opened with
  | inr err => mret (wrapErr err)
  | inl yk =>
      deferClose (key_yubiKey y) yk (
        privateKey ← Eff.lift (yk_PrivateKey dev yk (key_pivSlot y) (key_pub y));
        match privateKey with
        | inr err => mret (wrapErr err)
        | inl privateKey =>
            signature ← Eff.lift (priv_Sign dev privateKey digest opts);
            match signature with
            | inr err => mret (wrapErr err)
            | inl signature => mret (inl signature)
            end
        end)
  end.

(** [YubiKeyPrivateKey.GetAttestationStatement] *)
Definition GetAttestationStatement (y : YubiKeyPrivateKey) : M (Statement + error) :=
  opened ← open (key_yubiKey y);
  match opened with
  | inr err => mret (wrapErr err)
  | inl yk =>
      deferClose (key_yubiKey y) yk (
        slotCert ← Eff.lift (yk_Attest dev yk (key_pivSlot y));
        match slotCert with
        | inr err => mret (wrapErr err)
        | inl slotCert =>
            attCert ← Eff.lift (yk_AttestationCertificate dev yk);
            match attCert with
            | inr err => mret (wrapErr err)
            | inl attCert =>
                mret (inl (newStatement lib (cert_Raw slotCert) (cert_Raw attCert)))
            end
        end)
  end.

End Keys.

(** The connection discipline of the card: one connection at a time, and
    none left open. [connected] runs a log from a state (the card that is
    open, if any) to the state it ends in, or fails where the log opens a
    second connection or closes one that is not open. *)
Fixpoint connected (held : option string) (log : list PivEvent) : option (option string) :=
  match log with
  | [] => Some held
  | EvOpened c :: rest =>
      match held with
      | None => connected (Some c) rest
      | Some _ => None
      end
  | EvClosed c :: rest =>
      match held with
      | Some c' => if decide (c' = c) then connected None rest else None
      | None => None
      end
  | EvOpenFailed _ :: rest => connected held rest
  | EvGenerateKey _ _ :: rest | EvSetCertificate _ :: rest =>
      match held with
      | Some _ => connected held rest
      | None => None
      end
  end.

(** A log that starts and ends with no connection open, never holds two, and
    generates keys and stores certificates only while connected. *)
Definition disciplined (log : list PivEvent) : Prop := connected None log = Some None.

(** A log in which no key is generated and no certificate is stored. *)
Definition writes_nothing (log : list PivEvent) : Prop :=
  Forall (λ ev, match ev with
                | EvGenerateKey _ _ | EvSetCertificate _ => False
                | _ => True
                end) log.

End YubiKey.

(** ** A simulated card reader

    A concrete world for the hardware keys: the readers that are plugged in,
    each with a serial number and the certificates of its slots, and a
    counter that stands for the random source and the key generator. *)

Module SimKey.
Import YubiKey.

Record Reader := {
  reader_name : string;
  reader_serial : N;
  reader_certs : list (N * @Certificate N);
  reader_busy : bool;
}.

Record World := { readers : list Reader; counter : N }.

Definition find_reader (name : string) (w : World) : option Reader :=
  List.find (λ r, bool_decide (reader_name r = name)) (readers w).

Definition busy : error :=
  Error OtherError "could not connect to YubiKey as another application is using it".
Definition no_certificate : error := Error NotFound "certificate not found".
Definition unplugged : error := Error OtherError "reader is gone".

(** Store a certificate in a slot of a reader, in place of the one there. *)
Definition store (name : string) (slotKey : N) (cert : @Certificate N) (w : World) : World :=
  {| readers :=
       map (λ r, if bool_decide (reader_name r = name)
                 then {| reader_name := reader_name r; reader_serial := reader_serial r;
                         reader_certs :=
                           (slotKey, cert)
                           :: List.filter (λ e, negb (bool_decide (e.1 = slotKey)))
                                (reader_certs r);
                         reader_busy := reader_busy r |}
                 else r) (readers w);
     counter := counter w |}.

Definition tick (w : World) : World :=
  {| readers := readers w; counter := (counter w + 1)%N |}.

Definition with_reader {A} (name : string) (w : World) (f : Reader → A + error)
  : (A + error) * World :=
  match find_reader name w with
  | Some r => (f r, w)
  | None => (inr unplugged, w)
  end.

Definition device : @Device World string N N :=
  {| piv_Cards w := (inl (map reader_name (readers w)), w);
     dev_open name w :=
       with_reader name w (λ r, if reader_busy r then inr busy else inl name);
     yk_Close _ w := w;
     yk_Serial name w := with_reader name w (λ r, inl (reader_serial r));
     yk_Certificate name slot w :=
       match find_reader name w with
       | Some r =>
           match List.find (λ e, bool_decide (e.1 = Key slot)) (reader_certs r) with
           | Some e => ((Some e.2, None), w)
           | None => ((None, Some no_certificate), w)
           end
       | None => ((None, Some unplugged), w)
       end;
     yk_GenerateKey name slot opts w := (inl (counter w), tick w);
     yk_PrivateKey name slot pub w := (inl pub, w);
     yk_SetCertificate name slot cert w := (None, store name (Key slot) cert w);
     yk_Attest name slot w :=
       match find_reader name w with
       | Some r =>
           match List.find (λ e, bool_decide (e.1 = Key slot)) (reader_certs r) with
           | Some e => (inl e.2, w)
           | None => (inr no_certificate, w)
           end
       | None => (inr unplugged, w)
       end;
     yk_AttestationCertificate name w :=
       (inl {| cert_SerialNumber := 0; cert_PublicKey := 0%N;
               cert_Organization := ["Yubico"]; cert_OrganizationalUnit := [];
               cert_Raw := [1%N] |}, w);
     priv_Sign priv digest opts w := (inl (priv :: opts :: digest), w);
     rand_Int limit w := (inl (counter w mod limit)%N, tick w);
     x509_CreateCertificate cert pub priv w := (inl [cert_SerialNumber cert; pub], w) |}.

(** Lower case of the ASCII letters, as the names of the readers are ASCII. *)
Definition lower (c : Ascii.ascii) : Ascii.ascii :=
  let n := Ascii.nat_of_ascii c in
  if ((65 <=? n) && (n <=? 90))%nat then Ascii.ascii_of_nat (n + 32) else c.

Fixpoint to_lower (s : string) : string :=
  match s with
  | EmptyString => EmptyString
  | String c rest => String (lower c) (to_lower rest)
  end.

Definition library
  : @Library N (list N * list N) (@YubiKeyPrivateKey N * list N) :=
  {| json_Marshal d := inl [SerialNumber d; SlotKey d];
     json_Unmarshal bytes :=
       match bytes with
       | [serial; slotKey] => inl {| SerialNumber := serial; SlotKey := slotKey |}
       | _ => inr (Error OtherError "unexpected end of JSON input")
       end;
     pem_EncodeToMemory _ bytes := bytes;
     pivYubiKeyPrivateKeyType := "PIV YUBIKEY PRIVATE KEY";
     api_Version := "11.0.0";
     strings_ToLower := to_lower;
     NewPrivateKey priv keyPEM := inl (priv, keyPEM);
     newStatement slotCert attCert := (slotCert, attCert);
     fmt_slot _ := "?";
     fmt_serial _ := "?";
     fmt_cert _ := "?" |}.

(** A certificate that a client stored in a slot, and one of unknown origin. *)
Definition teleport_cert (pub : N) : @Certificate N :=
  {| cert_SerialNumber := 7; cert_PublicKey := pub;
     cert_Organization := [certOrgName]; cert_OrganizationalUnit := ["11.0.0"];
     cert_Raw := [7%N; pub] |}.

Definition other_cert : @Certificate N :=
  {| cert_SerialNumber := 9; cert_PublicKey := 99%N;
     cert_Organization := ["acme"]; cert_OrganizationalUnit := [];
     cert_Raw := [9%N] |}.

(** A card reader that is no YubiKey, a fresh YubiKey, and a YubiKey that a
    client has used for the slot without touch. *)
Definition smartcard : Reader :=
  {| reader_name := "Generic Smart Card Reader 00"; reader_serial := 1;
     reader_certs := []; reader_busy := false |}.
Definition fresh_key : Reader :=
  {| reader_name := "Yubico YubiKey OTP+FIDO+CCID 00"; reader_serial := 12345678;
     reader_certs := []; reader_busy := false |}.
Definition used_key : Reader :=
  {| reader_name := "Yubico YubiKey CCID 01"; reader_serial := 87654321;
     reader_certs := [(Key pivSlotNoTouch, teleport_cert 42)]; reader_busy := false |}.
Definition busy_key : Reader :=
  {| reader_name := "Yubico YubiKey CCID 02"; reader_serial := 5;
     reader_certs := []; reader_busy := true |}.

Definition desk (rs : list Reader) : World := {| readers := rs; counter := 100 |}.

End SimKey.

(** * Properties *)

(** ** Conditions *)

Lemma FindStatusCondition_Set_other now cs c ty :
  ty ≠ cType c →
  FindStatusCondition (SetStatusCondition now cs c) ty = FindStatusCondition cs ty.
Proof.
  intros Hty. induction cs as [|d cs IH]; simpl.
  - unfold stampCondition. destruct (decide (cLastTransitionTime c = 0)); simpl;
      destruct (decide (cType c = ty)); congruence.
  - destruct (decide (cType d = cType c)) as [Heq|Hne]; simpl.
    + destruct (decide (cType d = ty)); [congruence|done].
    + destruct (decide (cType d = ty)); [done|apply IH].
Qed.

Lemma sameVerdict_stamp now c : sameVerdict (stampCondition now c) c.
Proof.
  unfold sameVerdict, stampCondition.
  by destruct (decide (cLastTransitionTime c = 0)).
Qed.

Lemma sameVerdict_merge now d c : sameVerdict (mergeCondition now d c) c.
Proof.
  unfold sameVerdict, mergeCondition; simpl.
  split_and!; [|done..].
  case_bool_decide as Hs; [done|].
  destruct (decide (cStatus d = cStatus c)); [done|contradiction].
Qed.

Lemma FindStatusCondition_Set_same now cs c :
  ∃ d, FindStatusCondition (SetStatusCondition now cs c) (cType c) = Some d
       ∧ sameVerdict d c.
Proof.
  induction cs as [|e cs IH]; simpl.
  - exists (stampCondition now c). split; [|apply sameVerdict_stamp].
    assert (cType (stampCondition now c) = cType c) as Hty.
    { unfold stampCondition. by destruct (decide (cLastTransitionTime c = 0)). }
    by rewrite decide_True.
  - destruct (decide (cType e = cType c)) as [Heq|Hne]; simpl.
    + exists (mergeCondition now e c). split; [|apply sameVerdict_merge].
      by rewrite decide_True.
    + by rewrite decide_False.
Qed.

Lemma checkOwnership_type {T} `{ResourceWithOrigin T} (existing : option T) :
  cType (checkOwnership existing).1 = ConditionTypeOwnership.
Proof.
  destruct existing as [t|]; simpl; [|done].
  by destruct (decide (Origin t = OriginKubernetes)).
Qed.

Lemma getReconciliationConditionFromError_type err :
  cType (getReconciliationConditionFromError err) = ConditionTypeReconciliation.
Proof. by destruct err. Qed.

(** ** The passes of [Upsert], call by call *)

Section EngineFacts.
Context {B T K : Type} `{ResourceWithOrigin T} `{TeleportKubernetesResource T K}.
Variable Now : B → Z.
Implicit Types (r : @TeleportResourceReconciler B T K) (k : K) (w : B).

(** [Upsert] on an object of the expected type, with the monad unfolded: the
    outcome of each external call decides the next one. *)
Lemma Upsert_IsK r k w :
  Upsert Now r (IsK k) w =
  let name := GetName (ToTeleport k) in
  let '((existing, getErr), w1) := GetTeleportResource r name w in
  if notnil getErr && negb (IsNotFound getErr)
  then ((getErr, IsK k), w1, [EvGet name])
  else
    let '(c, ownErr) := checkOwnership existing in
    let k1 := withCondition (Now w1) k c in
    match ownErr with
    | Some e =>
        let '(statusErr, w2) := StatusUpdate (Client (Base r)) k1 w1 in
        ((Some e, IsK k1), w2,
         [EvGet name; EvCheckOwnership existing; EvStatusUpdate k1] ++ logOf statusErr)
    | None =>
        let exists_ := negb (IsNotFound getErr) in
        let t := SetOrigin OriginKubernetes (ToTeleport k) in
        let '(mutErr, w2) := mutationCall r exists_ t w1 in
        let k2 := withCondition (Now w2) k1 (getReconciliationConditionFromError mutErr) in
        let '(statusErr, w3) := StatusUpdate (Client (Base r)) k2 w2 in
        match mutErr with
        | Some e =>
            ((Some e, IsK k2), w3,
             [EvGet name; EvCheckOwnership existing; mutationEvent exists_ t;
              EvStatusUpdate k2] ++ logOf statusErr)
        | None =>
            ((statusErr, IsK k2), w3,
             [EvGet name; EvCheckOwnership existing; mutationEvent exists_ t;
              EvStatusUpdate k2])
        end
    end.
Proof.
  unfold Upsert, callGet, mbind, Eff_bind, Eff.bind, Eff.tell, Eff.lift; simpl.
  destruct (GetTeleportResource r _ w) as [[existing getErr] w1]; simpl.
  destruct (notnil getErr && negb (IsNotFound getErr)); [done|].
  unfold runCheckOwnership, setCondition, mbind, Eff_bind, Eff.bind, Eff.tell,
    Eff.ask, mret, Eff_ret, Eff.ret; simpl.
  destruct (checkOwnership existing) as [c [e|]]; simpl.
  - unfold silentUpdateStatus, statusUpdate, mbind, Eff_bind, Eff.bind, Eff.tell,
      Eff.lift, withCondition; simpl.
    destruct (StatusUpdate _ _ w1) as [[se|] w2]; done.
  - unfold mutationCall, mutationEvent, callCreate, callUpdate, mbind, Eff_bind,
      Eff.bind, Eff.tell, Eff.lift, withCondition; simpl.
    destruct (negb (negb (IsNotFound getErr))); simpl.
    + destruct (CreateTeleportResource r _ w1) as [[me|] w2]; simpl;
        unfold silentUpdateStatus, statusUpdate, mbind, Eff_bind, Eff.bind, Eff.tell,
          Eff.lift; simpl;
        destruct (StatusUpdate _ _ w2) as [[se|] w3]; done.
    + destruct (UpdateTeleportResource r _ w1) as [[me|] w2]; simpl;
        unfold silentUpdateStatus, statusUpdate, mbind, Eff_bind, Eff.bind, Eff.tell,
          Eff.lift; simpl;
        destruct (StatusUpdate _ _ w2) as [[se|] w3]; done.
Qed.

(** What a pass logs besides its mutating call. *)
Lemma logOf_not_mutation (statusErr : option error) :
  Forall (λ ev : Event T K, is_mutation ev = false) (logOf statusErr).
Proof. destruct statusErr; repeat constructor. Qed.

Lemma logOf_not_status (statusErr : option error) :
  Forall (λ ev : Event T K, is_status_persist ev = false) (logOf statusErr).
Proof. destruct statusErr; repeat constructor. Qed.

Lemma logOf_not_check (statusErr : option error) :
  Forall (λ ev : Event T K, is_ownership_check ev = false) (logOf statusErr).
Proof. destruct statusErr; repeat constructor. Qed.

Lemma mutationEvent_is_mutation (exists_ : bool) (t : T) :
  is_mutation (mutationEvent exists_ t : Event T K) = true.
Proof. by destruct exists_. Qed.

(** A log with a single mutating call splits around it in one way only. *)
Lemma single_mutation_split (a b pre post : list (Event T K)) (m ev : Event T K) :
  Forall (λ e, is_mutation e = false) a →
  Forall (λ e, is_mutation e = false) b →
  a ++ m :: b = pre ++ ev :: post →
  is_mutation ev = true →
  pre = a ∧ ev = m ∧ post = b.
Proof.
  intros Ha Hb. revert pre.
  induction Ha as [|x a Hx Ha IH]; intros pre Heq Hev.
  - destruct pre as [|y pre]; simpl in Heq.
    + by inversion Heq.
    + inversion Heq; subst. exfalso.
      assert (ev ∈ pre ++ ev :: post) as Hin by set_solver.
      rewrite Forall_forall in Hb. specialize (Hb ev Hin). congruence.
  - destruct pre as [|y pre]; simpl in Heq.
    + inversion Heq; subst. congruence.
    + inversion Heq; subst.
      destruct (IH pre) as (-> & -> & ->); done.
Qed.

(** The two shapes of the log of a pass: no mutating call at all, or the get,
    the ownership check, one mutating call, one status write and at most the
    log entry of a failed write, in this order. *)
Lemma Upsert_calls_shape r obj w :
  Forall (λ ev, is_mutation ev = false) (Eff.calls (Upsert Now r obj w))
  ∨ ∃ name existing exists_ t k2 statusErr,
      Eff.calls (Upsert Now r obj w) =
        [EvGet name; EvCheckOwnership existing] ++
        mutationEvent exists_ t :: (EvStatusUpdate k2 :: logOf statusErr).
Proof.
  destruct obj as [k|ty nm]; [|left; constructor].
  rewrite Upsert_IsK; simpl.
  destruct (GetTeleportResource r _ w) as [[existing getErr] w1].
  destruct (notnil getErr && negb (IsNotFound getErr)).
  { left. repeat constructor. }
  destruct (checkOwnership existing) as [c [e|]].
  - destruct (StatusUpdate _ _ w1) as [statusErr w2]. left.
    unfold Eff.calls; simpl. repeat (constructor; [done|]).
    apply logOf_not_mutation.
  - destruct (mutationCall r _ _ w1) as [mutErr w2].
    destruct (StatusUpdate _ _ w2) as [statusErr w3] eqn:Hst.
    right. destruct mutErr as [e|].
    + by eexists _, _, _, _, _, statusErr.
    + by eexists _, _, _, _, _, None.
Qed.

End EngineFacts.

(** ** The upsert and delete paths *)

Section Claims.
Context {B T K : Type} `{ResourceWithOrigin T} `{TeleportKubernetesResource T K}.
Variable Now : B → Z.
Implicit Types (r : @TeleportResourceReconciler B T K) (k : K) (w : B).

(** C1 (ownership gate). When the get call finds a resource whose origin is
    not the engine's, the pass makes no create, update or delete call: its
    log is the get, the ownership check and one status write (plus the log
    entry of a failed write), and the world it leaves is the one the status
    writer leaves. The object written carries an ownership condition that is
    false, and the pass returns the ownership error. *)
Theorem ownership_gate r k w existing w1 :
  GetTeleportResource r (GetName (ToTeleport k)) w = ((Some existing, None), w1) →
  Origin existing ≠ OriginKubernetes →
  ∃ k1 e statusErr w2,
    StatusUpdate (Client (Base r)) k1 w1 = (statusErr, w2)
    ∧ Eff.value (Upsert Now r (IsK k) w) = (Some e, IsK k1)
    ∧ err_class e = OwnershipConflict
    ∧ Eff.calls (Upsert Now r (IsK k) w) =
        [EvGet (GetName (ToTeleport k)); EvCheckOwnership (Some existing);
         EvStatusUpdate k1] ++ logOf statusErr
    ∧ Eff.world (Upsert Now r (IsK k) w) = w2
    ∧ (∀ ev, ev ∈ Eff.calls (Upsert Now r (IsK k) w) → is_mutation ev = false)
    ∧ ∃ c, FindStatusCondition (StatusConditions k1) ConditionTypeOwnership = Some c
           ∧ cStatus c = ConditionFalse.
Proof.
  intros Hget Horigin.
  rewrite Upsert_IsK; simpl. rewrite Hget; simpl.
  rewrite decide_False by done.
  match goal with |- context [withCondition ?n k ?c] =>
    set (own := c); set (k1 := withCondition n k own) end.
  destruct (StatusUpdate (Client (Base r)) k1 w1) as [statusErr w2] eqn:Hst.
  eexists k1, _, statusErr, w2. split_and!; try done.
  - intros ev Hev. unfold Eff.calls in Hev; simpl in Hev.
    apply elem_of_cons in Hev as [->|Hev]; [done|].
    apply elem_of_cons in Hev as [->|Hev]; [done|].
    apply elem_of_cons in Hev as [->|Hev]; [done|].
    pose proof (logOf_not_mutation (T:=T) (K:=K) statusErr) as Hlog.
    rewrite Forall_forall in Hlog. by apply Hlog.
  - destruct (FindStatusCondition_Set_same (Now w1) (StatusConditions k) own)
      as (d & Hd & Hs & _).
    exists d. split; [|by rewrite Hs].
    unfold k1, withCondition. by rewrite StatusConditions_Set.
Qed.

(** C2 (upsert dispatch). In a pass that reaches the mutation step (the get
    call succeeded or reported NotFound, and the ownership check raised no
    error) the resource is stamped with the engine's origin and exactly one
    bound function is run on it, once, in the world the get call left: the
    create function when the get call reported NotFound, the update function
    otherwise. The mutating calls in the log are that one call; the world the
    status writer then runs in is the world that function left, and what the
    pass returns is the error of that function or, when it returned nil, the
    result of the status write. *)
Theorem upsert_dispatch r k w existing getErr w1 c :
  GetTeleportResource r (GetName (ToTeleport k)) w = ((existing, getErr), w1) →
  notnil getErr && negb (IsNotFound getErr) = false →
  checkOwnership existing = (c, None) →
  let t := SetOrigin OriginKubernetes (ToTeleport k) in
  let bound :=
    if IsNotFound getErr then CreateTeleportResource r t else UpdateTeleportResource r t in
  let call := if IsNotFound getErr then EvCreate t else EvUpdate t in
  Origin t = OriginKubernetes
  ∧ List.filter is_mutation (Eff.calls (Upsert Now r (IsK k) w)) = [call]
  ∧ ∃ k2 statusErr,
      StatusUpdate (Client (Base r)) k2 (bound w1).2
      = (statusErr, Eff.world (Upsert Now r (IsK k) w))
      ∧ Eff.value (Upsert Now r (IsK k) w)
        = (match (bound w1).1 with Some e => Some e | None => statusErr end, IsK k2)
      ∧ Eff.calls (Upsert Now r (IsK k) w)
        = [EvGet (GetName (ToTeleport k)); EvCheckOwnership existing; call;
           EvStatusUpdate k2]
          ++ match (bound w1).1 with Some _ => logOf statusErr | None => [] end.
Proof.
  intros Hget Hguard Hown t bound call. split; [apply Origin_SetOrigin|].
  rewrite Upsert_IsK; simpl. rewrite Hget; simpl. rewrite Hguard, Hown.
  unfold mutationCall, mutationEvent. subst bound call. fold t.
  rewrite negb_involutive.
  destruct (IsNotFound getErr).
  - destruct (CreateTeleportResource r t w1) as [mutErr w2]; simpl.
    destruct (StatusUpdate _ _ w2) as [statusErr w3] eqn:Hst.
    destruct mutErr as [e|].
    + split; [by destruct statusErr|]. eexists _, statusErr. by rewrite Hst.
    + split; [done|]. eexists _, statusErr. by rewrite Hst.
  - destruct (UpdateTeleportResource r t w1) as [mutErr w2]; simpl.
    destruct (StatusUpdate _ _ w2) as [statusErr w3] eqn:Hst.
    destruct mutErr as [e|].
    + split; [by destruct statusErr|]. eexists _, statusErr. by rewrite Hst.
    + split; [done|]. eexists _, statusErr. by rewrite Hst.
Qed.

(** C3 (get error). When the get call fails with an error that is not
    NotFound, the pass returns that error after the get call alone: no create
    or update call, but also no status write, and the conditions of the
    object are the ones it came with. *)
Theorem get_error_aborts_unrecorded r k w existing e w1 :
  GetTeleportResource r (GetName (ToTeleport k)) w = ((existing, Some e), w1) →
  err_class e ≠ NotFound →
  Upsert Now r (IsK k) w = ((Some e, IsK k), w1, [EvGet (GetName (ToTeleport k))]).
Proof.
  intros Hget Hclass.
  rewrite Upsert_IsK; simpl. rewrite Hget; simpl.
  by rewrite bool_decide_eq_false_2.
Qed.

(** C4, as amended (status-write errors on the failing paths). Whatever the
    Kubernetes client does with the status write, a pass whose get, ownership
    check or mutating call failed returns that error; a pass in which all of
    them succeeded returns the result of its status write. *)
Theorem status_error_swallowed_on_failure r client k w :
  match primaryError r k w with
  | Some e => (Eff.value (Upsert Now (withClient client r) (IsK k) w)).1 = Some e
  | None =>
      ∃ k2 w2,
        last (Eff.calls (Upsert Now (withClient client r) (IsK k) w))
          = Some (EvStatusUpdate k2)
        ∧ (Eff.value (Upsert Now (withClient client r) (IsK k) w)).2 = IsK k2
        ∧ (Eff.value (Upsert Now (withClient client r) (IsK k) w)).1
          = (StatusUpdate client k2 w2).1
        ∧ Eff.world (Upsert Now (withClient client r) (IsK k) w)
          = (StatusUpdate client k2 w2).2
  end.
Proof.
  unfold primaryError. rewrite Upsert_IsK; simpl.
  destruct (GetTeleportResource r _ w) as [[existing getErr] w1].
  destruct (notnil getErr && negb (IsNotFound getErr)) eqn:Hguard.
  { destruct getErr; done. }
  destruct (checkOwnership existing) as [c [e|]]; simpl.
  { by destruct (StatusUpdate client _ w1). }
  change (mutationCall (withClient client r)) with (mutationCall r).
  destruct (mutationCall r _ _ w1) as [mutErr w2]; simpl.
  match goal with |- context [StatusUpdate client ?k2 w2] =>
    destruct (StatusUpdate client k2 w2) as [statusErr w3] eqn:Hst end.
  destruct mutErr as [e|]; [done|].
  eexists _, w2. rewrite Hst. done.
Qed.

(** C5, as amended (delete). [Delete] makes one call, the bound delete
    function on the name of the object, and returns what that call returns,
    whatever it is: a NotFound error comes back as that NotFound error, and
    any other error comes back unchanged. *)
Theorem Delete_forwards r obj w :
  Delete r obj w =
    ((DeleteTeleportResource r (Object_GetName obj) w).1,
     (DeleteTeleportResource r (Object_GetName obj) w).2,
     [EvDelete (Object_GetName obj)]).
Proof.
  unfold Delete, callDelete, mbind, Eff_bind, Eff.bind, Eff.tell, Eff.lift.
  by destruct (DeleteTeleportResource r _ w).
Qed.

(** C6, as amended (status written by a pass). A pass on an object of the
    expected type whose get call succeeded or reported NotFound ends with a
    write of the object's status: the status writer is run on the object the
    pass leaves, in the world the last backend call left (the get call when
    ownership is denied, the create or update call otherwise), and the world
    the pass leaves is the world the writer left. The write is the last call
    of the pass apart from the log entry of its own failure, no write
    precedes it, and the pass returns the ownership error, else the error of
    the create or update call, else the result of the write. The conditions
    written are the ones the object came with, with the verdict of the
    ownership check and, when ownership was granted, the outcome of the
    create or update call set by type; both are recorded. *)
Theorem status_written_after_get r k w existing getErr w1 :
  GetTeleportResource r (GetName (ToTeleport k)) w = ((existing, getErr), w1) →
  notnil getErr && negb (IsNotFound getErr) = false →
  let ownErr := (checkOwnership existing).2 in
  let mutation :=
    mutationCall r (negb (IsNotFound getErr))
      (SetOrigin OriginKubernetes (ToTeleport k)) w1 in
  let primary := match ownErr with Some e => Some e | None => mutation.1 end in
  let before := match ownErr with Some _ => w1 | None => mutation.2 end in
  ∃ k' pre statusErr,
    (Eff.value (Upsert Now r (IsK k) w)).2 = IsK k'
    ∧ StatusUpdate (Client (Base r)) k' before
      = (statusErr, Eff.world (Upsert Now r (IsK k) w))
    ∧ (Eff.value (Upsert Now r (IsK k) w)).1
      = match primary with Some e => Some e | None => statusErr end
    ∧ Eff.calls (Upsert Now r (IsK k) w)
      = pre ++ EvStatusUpdate k'
               :: match primary with Some _ => logOf statusErr | None => [] end
    ∧ Forall (λ ev, is_status_persist ev = false) pre
    ∧ StatusConditions k' = conditionsAfter Now r k existing getErr w1
    ∧ records k' (checkOwnership existing).1
    ∧ (ownErr = None → records k' (getReconciliationConditionFromError mutation.1)).
Proof.
  intros Hget Hguard ownErr mutation primary before.
  subst ownErr mutation primary before. unfold conditionsAfter.
  rewrite Upsert_IsK; simpl. rewrite Hget; simpl. rewrite Hguard.
  pose proof (checkOwnership_type existing) as Hty.
  destruct (checkOwnership existing) as [c ownErr]; simpl in *.
  assert (StatusConditions (withCondition (Now w1) k c)
          = SetStatusCondition (Now w1) (StatusConditions k) c) as Hc1.
  { unfold withCondition. by rewrite StatusConditions_Set. }
  assert (records (withCondition (Now w1) k c) c) as Hrec1.
  { unfold records. rewrite Hc1. apply FindStatusCondition_Set_same. }
  destruct ownErr as [e|].
  - destruct (StatusUpdate _ _ w1) as [statusErr w2] eqn:Hst.
    eexists _, [_; _], statusErr. rewrite Hst. split_and!; try done.
    repeat constructor.
  - destruct (mutationCall r _ _ w1) as [mutErr w2]; simpl.
    set (rc := getReconciliationConditionFromError mutErr).
    set (k1 := withCondition (Now w1) k c) in *.
    assert (StatusConditions (withCondition (Now w2) k1 rc)
            = SetStatusCondition (Now w2)
                (SetStatusCondition (Now w1) (StatusConditions k) c) rc) as Hc2.
    { unfold withCondition at 1. by rewrite StatusConditions_Set, Hc1. }
    assert (records (withCondition (Now w2) k1 rc) c) as Hown.
    { destruct Hrec1 as (d & Hd & Hs). exists d. split; [|done].
      unfold withCondition at 1. rewrite StatusConditions_Set.
      rewrite FindStatusCondition_Set_other; [done|].
      unfold rc. rewrite getReconciliationConditionFromError_type, Hty. done. }
    assert (records (withCondition (Now w2) k1 rc) rc) as Hrc.
    { unfold records, withCondition at 1. rewrite StatusConditions_Set.
      apply FindStatusCondition_Set_same. }
    assert (Forall (λ ev : Event T K, is_status_persist ev = false)
              [EvGet (GetName (ToTeleport k)); EvCheckOwnership existing;
               mutationEvent (negb (IsNotFound getErr))
                 (SetOrigin OriginKubernetes (ToTeleport k))]) as Hpre.
    { unfold mutationEvent. destruct (negb (negb (IsNotFound getErr)));
        repeat constructor. }
    destruct (StatusUpdate _ _ w2) as [statusErr w3] eqn:Hst.
    destruct mutErr as [e|];
      (eexists _, [_; _; _], statusErr; rewrite Hst; split_and!; done).
Qed.

(** C7 (ordering within a pass). Around any mutating call in the log of a
    pass: the ownership check was evaluated before it and no status write
    was made before it; a status write follows it, and neither a second
    mutating call nor an ownership check does. *)
Theorem in_pass_ordering r obj w pre ev post :
  Eff.calls (Upsert Now r obj w) = pre ++ ev :: post →
  is_mutation ev = true →
  (∃ existing, EvCheckOwnership existing ∈ pre)
  ∧ Forall (λ e, is_status_persist e = false) pre
  ∧ (∃ k', EvStatusUpdate k' ∈ post)
  ∧ Forall (λ e, is_mutation e = false ∧ is_ownership_check e = false) post.
Proof.
  intros Hsplit Hev.
  destruct (Upsert_calls_shape Now r obj w) as [Hnone|Hshape].
  - exfalso. rewrite Hsplit, Forall_forall in Hnone.
    assert (is_mutation ev = false) by (apply Hnone; set_solver). congruence.
  - destruct Hshape as (name & existing & exists_ & t & k2 & statusErr & Hcalls).
    rewrite Hcalls in Hsplit.
    apply single_mutation_split in Hsplit as (-> & -> & ->); try done.
    + split_and!.
      * exists existing. set_solver.
      * repeat constructor.
      * exists k2. set_solver.
      * constructor; [done|].
        pose proof (logOf_not_mutation (T:=T) (K:=K) statusErr) as Hm.
        pose proof (logOf_not_check (T:=T) (K:=K) statusErr) as Hc.
        rewrite Forall_forall in Hm, Hc. apply Forall_forall. intros e He. auto.
    + repeat constructor.
    + constructor; [done|]. apply logOf_not_mutation.
Qed.

(** C8 (a denied pass leaves the reconciliation condition alone). When the
    ownership check raises its error, the object that the pass writes and
    leaves differs from the object it was given in the ownership condition
    only: every condition of another type, the reconciliation condition among
    them, is the one the object came with. *)
Theorem denied_keeps_reconciliation r k w existing getErr w1 c e :
  GetTeleportResource r (GetName (ToTeleport k)) w = ((existing, getErr), w1) →
  notnil getErr && negb (IsNotFound getErr) = false →
  checkOwnership existing = (c, Some e) →
  ∃ k1,
    Eff.value (Upsert Now r (IsK k) w) = (Some e, IsK k1)
    ∧ StatusConditions k1 = SetStatusCondition (Now w1) (StatusConditions k) c
    ∧ cType c = ConditionTypeOwnership
    ∧ (∀ ty, ty ≠ ConditionTypeOwnership →
         FindStatusCondition (StatusConditions k1) ty
         = FindStatusCondition (StatusConditions k) ty)
    ∧ FindStatusCondition (StatusConditions k1) ConditionTypeReconciliation
      = FindStatusCondition (StatusConditions k) ConditionTypeReconciliation
    ∧ (∀ k', EvStatusUpdate k' ∈ Eff.calls (Upsert Now r (IsK k) w) → k' = k1).
Proof.
  intros Hget Hguard Hown.
  pose proof (checkOwnership_type existing) as Hty. rewrite Hown in Hty; simpl in Hty.
  rewrite Upsert_IsK; simpl. rewrite Hget; simpl. rewrite Hguard, Hown.
  destruct (StatusUpdate _ _ w1) as [statusErr w2].
  exists (withCondition (Now w1) k c).
  assert (StatusConditions (withCondition (Now w1) k c)
          = SetStatusCondition (Now w1) (StatusConditions k) c) as Hconds.
  { unfold withCondition. by rewrite StatusConditions_Set. }
  split_and!; try done.
  - intros ty Hne. rewrite Hconds.
    apply FindStatusCondition_Set_other. by rewrite Hty.
  - rewrite Hconds. apply FindStatusCondition_Set_other. by rewrite Hty.
  - intros k' Hin. unfold Eff.calls in Hin; simpl in Hin.
    apply elem_of_cons in Hin as [?|Hin]; [done|].
    apply elem_of_cons in Hin as [?|Hin]; [done|].
    apply elem_of_cons in Hin as [Heq|Hin]; [by inversion Heq|].
    destruct statusErr; simpl in Hin.
    + apply elem_of_cons in Hin as [?|Hin]; [done|]. by apply elem_of_nil in Hin.
    + by apply elem_of_nil in Hin.
Qed.

(** C10 (type-mismatch guard). On an object that is not of the expected type
    [Upsert] returns an error at once: no call is made, the world is left as
    it was, and the object is returned as it came. *)
Theorem Upsert_type_mismatch r typeName name w :
  Upsert Now r (NotK typeName name) w =
    ((Some (Error OtherError
              ("failed to convert Object into resource object: " +:+ typeName)),
      NotK typeName name), w, []).
Proof. reflexivity. Qed.

End Claims.

(** C9 (create and update coincide in the shipped adapters). The reconcilers
    built for OIDC, SAML and GitHub connectors bind the create function and
    the update function of the engine to the same function; whichever branch
    the mutation step of the engine takes, it fetches the Teleport client and
    hands the resource to the client's upsert call of that kind (or returns
    the accessor's error). *)
Theorem adapters_create_is_update
    {B OIDCConnector SAMLConnector GithubConnector : Type}
    {TeleportOIDCConnector TeleportSAMLConnector TeleportGithubConnector : Type}
    (accessor : @ClientAccessor B OIDCConnector SAMLConnector GithubConnector)
    (oidcClient : @KubeClient B TeleportOIDCConnector)
    (samlClient : @KubeClient B TeleportSAMLConnector)
    (githubClient : @KubeClient B TeleportGithubConnector) :
  let oidc := OIDC_TeleportResourceReconciler (NewOIDCConnectorReconciler oidcClient accessor) in
  let saml := SAML_TeleportResourceReconciler (NewSAMLConnectorReconciler samlClient accessor) in
  let github :=
    Github_TeleportResourceReconciler (NewGithubConnectorReconciler githubClient accessor) in
  (CreateTeleportResource oidc = UpdateTeleportResource oidc
   ∧ ∀ exists_ t w,
       mutationCall oidc exists_ t w =
       match accessor w with
       | (inl teleportClient, w1) => client_UpsertOIDCConnector teleportClient t w1
       | (inr err, w1) => (Some err, w1)
       end)
  ∧ (CreateTeleportResource saml = UpdateTeleportResource saml
     ∧ ∀ exists_ t w,
         mutationCall saml exists_ t w =
         match accessor w with
         | (inl teleportClient, w1) => client_UpsertSAMLConnector teleportClient t w1
         | (inr err, w1) => (Some err, w1)
         end)
  ∧ (CreateTeleportResource github = UpdateTeleportResource github
     ∧ ∀ exists_ t w,
         mutationCall github exists_ t w =
         match accessor w with
         | (inl teleportClient, w1) => client_UpsertGithubConnector teleportClient t w1
         | (inr err, w1) => (Some err, w1)
         end).
Proof.
  simpl. split_and!; try done; intros [] t w; unfold mutationCall; simpl;
    unfold UpsertOIDCConnector, UpsertSAMLConnector, UpsertGithubConnector,
      withTeleportClient;
    by destruct (accessor w) as [[teleportClient|err] w1].
Qed.

(** ** The passes of the simulated cluster *)

(** The scenario of the spec: "conn-a" is absent from Teleport and is
    created. One create call, on the resource stamped with the engine's
    origin; both conditions true, the ownership one for the reason
    "new resource"; the connector is in the backend afterwards. *)
Example scenario_conn_a :
  ∃ k',
    Eff.value (Sim.upsert_pass (IsK Sim.conn_a) Sim.empty_cluster) = (None, IsK k')
    ∧ List.filter is_mutation (Eff.calls (Sim.upsert_pass (IsK Sim.conn_a) Sim.empty_cluster))
      = [EvCreate {| Sim.conn_name := "conn-a"; Sim.conn_issuer := "https://issuer";
                     Sim.conn_redirect := ["https://redirect"];
                     Sim.conn_origin := OriginKubernetes |}]
    ∧ (cStatus <$> FindStatusCondition (StatusConditions k') ConditionTypeReconciliation)
      = Some ConditionTrue
    ∧ (cStatus <$> FindStatusCondition (StatusConditions k') ConditionTypeOwnership)
      = Some ConditionTrue
    ∧ (cReason <$> FindStatusCondition (StatusConditions k') ConditionTypeOwnership)
      = Some "new resource"
    ∧ (Sim.conn_origin <$>
         Sim.teleport (Eff.world (Sim.upsert_pass (IsK Sim.conn_a) Sim.empty_cluster))
           !! "conn-a") = Some OriginKubernetes.
Proof. eexists. vm_compute. split_and!; reflexivity. Qed.

(** C1 at work: "conn-a" exists in Teleport with the origin "config-file". *)
Lemma ownership_gate_witness :
  ∃ k1 e statusErr w2,
    StatusUpdate (Client (Base Sim.reconciler)) k1 Sim.foreign_cluster = (statusErr, w2)
    ∧ Eff.value (Sim.upsert_pass (IsK Sim.conn_a) Sim.foreign_cluster) = (Some e, IsK k1)
    ∧ err_class e = OwnershipConflict
    ∧ Eff.calls (Sim.upsert_pass (IsK Sim.conn_a) Sim.foreign_cluster) =
        [EvGet (GetName (ToTeleport Sim.conn_a)); EvCheckOwnership (Some Sim.manual_conn_a);
         EvStatusUpdate k1] ++ logOf statusErr
    ∧ Eff.world (Sim.upsert_pass (IsK Sim.conn_a) Sim.foreign_cluster) = w2
    ∧ (∀ ev, ev ∈ Eff.calls (Sim.upsert_pass (IsK Sim.conn_a) Sim.foreign_cluster) →
             is_mutation ev = false)
    ∧ ∃ c, FindStatusCondition (StatusConditions k1) ConditionTypeOwnership = Some c
           ∧ cStatus c = ConditionFalse.
Proof.
  apply (ownership_gate Sim.clock Sim.reconciler Sim.conn_a Sim.foreign_cluster
           Sim.manual_conn_a Sim.foreign_cluster).
  - reflexivity.
  - vm_compute. discriminate.
Defined.

(** The denied pass on the simulated cluster: the status that is stored for
    "conn-a" afterwards holds the false ownership condition, and the
    hand-made connector is still the one in the backend. *)
Example ownership_denial_persisted :
  (map cStatus <$>
     Sim.kube_status (Eff.world (Sim.upsert_pass (IsK Sim.conn_a) Sim.foreign_cluster))
       !! "conn-a") = Some [ConditionFalse]
  ∧ Sim.teleport (Eff.world (Sim.upsert_pass (IsK Sim.conn_a) Sim.foreign_cluster))
      !! "conn-a" = Some Sim.manual_conn_a.
Proof. vm_compute. split; reflexivity. Qed.

(** C2 at work: "conn-a" is absent, the get call reports NotFound; the
    create function is run on the empty backend and its world is the one the
    status is written in. *)
Lemma upsert_dispatch_witness :
  Origin (SetOrigin OriginKubernetes (ToTeleport Sim.conn_a)) = OriginKubernetes
  ∧ List.filter is_mutation (Eff.calls (Sim.upsert_pass (IsK Sim.conn_a) Sim.empty_cluster))
    = [EvCreate (SetOrigin OriginKubernetes (ToTeleport Sim.conn_a))]
  ∧ ∃ k2 statusErr,
      StatusUpdate (Client (Base Sim.reconciler)) k2
        (Sim.upsert (SetOrigin OriginKubernetes (ToTeleport Sim.conn_a))
           Sim.empty_cluster).2
      = (statusErr, Eff.world (Sim.upsert_pass (IsK Sim.conn_a) Sim.empty_cluster))
      ∧ Eff.value (Sim.upsert_pass (IsK Sim.conn_a) Sim.empty_cluster)
        = (match (Sim.upsert (SetOrigin OriginKubernetes (ToTeleport Sim.conn_a))
                    Sim.empty_cluster).1 with
           | Some e => Some e
           | None => statusErr
           end, IsK k2)
      ∧ Eff.calls (Sim.upsert_pass (IsK Sim.conn_a) Sim.empty_cluster)
        = [EvGet (GetName (ToTeleport Sim.conn_a)); EvCheckOwnership None;
           EvCreate (SetOrigin OriginKubernetes (ToTeleport Sim.conn_a));
           EvStatusUpdate k2]
          ++ match (Sim.upsert (SetOrigin OriginKubernetes (ToTeleport Sim.conn_a))
                      Sim.empty_cluster).1 with
             | Some _ => logOf statusErr
             | None => []
             end.
Proof.
  apply (upsert_dispatch Sim.clock Sim.reconciler Sim.conn_a Sim.empty_cluster
           None (Some (Sim.notFound "conn-a")) Sim.empty_cluster
           (checkOwnership (T:=Sim.Connector) None).1).
  - reflexivity.
  - reflexivity.
  - reflexivity.
Defined.

(** C3 at work: the backend is unavailable when "conn-a" is fetched. Nothing
    is written to the status of the object. *)
Lemma get_error_aborts_unrecorded_witness :
  Sim.upsert_pass (IsK Sim.conn_a) (Sim.with_get_fault Sim.unavailable Sim.empty_cluster)
  = ((Some Sim.unavailable, IsK Sim.conn_a),
     Sim.with_get_fault Sim.unavailable Sim.empty_cluster,
     [EvGet (GetName (ToTeleport Sim.conn_a))]).
Proof.
  apply (get_error_aborts_unrecorded Sim.clock Sim.reconciler Sim.conn_a
           (Sim.with_get_fault Sim.unavailable Sim.empty_cluster) None).
  - reflexivity.
  - vm_compute. discriminate.
Defined.

(** C4 refuted as stated: the get call reports NotFound and the create call
    succeeds, so the primary result is success, yet the pass returns the error
    of the status write. With a working status writer the same pass returns
    nil. *)
Lemma status_error_returned_on_success :
  primaryError Sim.reconciler Sim.conn_a
    (Sim.with_status_fault Sim.conflict Sim.empty_cluster) = None
  ∧ (Eff.value (Sim.upsert_pass (IsK Sim.conn_a)
                  (Sim.with_status_fault Sim.conflict Sim.empty_cluster))).1
    = Some Sim.conflict
  ∧ primaryError Sim.reconciler Sim.conn_a Sim.empty_cluster = None
  ∧ (Eff.value (Sim.upsert_pass (IsK Sim.conn_a) Sim.empty_cluster)).1 = None.
Proof. vm_compute. split_and!; reflexivity. Qed.

(** C4 as amended, at work: the create call fails and so does the status
    write; the pass returns the error of the create call. *)
Example status_error_swallowed_example :
  (Eff.value (Sim.upsert_pass (IsK Sim.conn_a)
                (Sim.with_write_fault Sim.unavailable
                   (Sim.with_status_fault Sim.conflict Sim.empty_cluster)))).1
  = Some Sim.unavailable.
Proof. reflexivity. Qed.

(** C5 refuted as stated: the connector is already gone from Teleport, the
    bound delete function reports NotFound, and [Delete] returns that error
    instead of success. *)
Lemma Delete_returns_NotFound :
  (Sim.delete "conn-a" Sim.empty_cluster).1 = Some (Sim.notFound "conn-a")
  ∧ IsNotFound (Some (Sim.notFound "conn-a")) = true
  ∧ Eff.value (Sim.delete_pass (IsK Sim.conn_a) Sim.empty_cluster)
    = Some (Sim.notFound "conn-a")
  ∧ Eff.value (Sim.delete_pass (IsK Sim.conn_a) Sim.empty_cluster) ≠ None.
Proof. split_and!; [reflexivity..|discriminate]. Qed.

(** C6 refuted as stated: a pass on an object of another type fails, makes
    no status write, and leaves the stored status as it was. And the
    conditions that a pass does write carry nothing of the generation of the
    object: the passes on "conn-a" at generation 1 and at generation 2 write
    the same conditions. *)
Lemma type_mismatch_writes_no_status :
  ((Eff.value (Sim.upsert_pass Sim.config_map Sim.empty_cluster)).1 ≠ None
   ∧ (Eff.value (Sim.upsert_pass Sim.config_map Sim.empty_cluster)).2 = Sim.config_map
   ∧ Eff.calls (Sim.upsert_pass Sim.config_map Sim.empty_cluster) = []
   ∧ Eff.world (Sim.upsert_pass Sim.config_map Sim.empty_cluster) = Sim.empty_cluster)
  ∧ (Sim.meta_generation Sim.conn_a ≠ Sim.meta_generation Sim.conn_a_edited
     ∧ Sim.conditions_of (Eff.value (Sim.upsert_pass (IsK Sim.conn_a) Sim.empty_cluster)).2
       = Sim.conditions_of
           (Eff.value (Sim.upsert_pass (IsK Sim.conn_a_edited) Sim.empty_cluster)).2
     ∧ Sim.kube_status (Eff.world (Sim.upsert_pass (IsK Sim.conn_a) Sim.empty_cluster))
         !! "conn-a"
       = Sim.kube_status
           (Eff.world (Sim.upsert_pass (IsK Sim.conn_a_edited) Sim.empty_cluster))
         !! "conn-a").
Proof.
  split; [split_and!; [discriminate|reflexivity..]|].
  split_and!; [discriminate|reflexivity|vm_compute; reflexivity].
Qed.

(** C6 as amended, at work: the create call fails on an unavailable backend;
    the failure is written to the status of "conn-a", and the stored status
    holds it afterwards. *)
Lemma status_written_after_get_witness :
  ∃ k' pre statusErr,
    (Eff.value (Sim.upsert_pass (IsK Sim.conn_a)
                  (Sim.with_write_fault Sim.unavailable Sim.empty_cluster))).2 = IsK k'
    ∧ StatusUpdate (Client (Base Sim.reconciler)) k'
        (Sim.with_write_fault Sim.unavailable Sim.empty_cluster)
      = (statusErr,
         Eff.world (Sim.upsert_pass (IsK Sim.conn_a)
                      (Sim.with_write_fault Sim.unavailable Sim.empty_cluster)))
    ∧ (Eff.value (Sim.upsert_pass (IsK Sim.conn_a)
                    (Sim.with_write_fault Sim.unavailable Sim.empty_cluster))).1
      = Some Sim.unavailable
    ∧ Eff.calls (Sim.upsert_pass (IsK Sim.conn_a)
                   (Sim.with_write_fault Sim.unavailable Sim.empty_cluster))
      = pre ++ EvStatusUpdate k' :: logOf statusErr
    ∧ Forall (λ ev, is_status_persist ev = false) pre
    ∧ StatusConditions k' =
        conditionsAfter Sim.clock Sim.reconciler Sim.conn_a None
          (Some (Sim.notFound "conn-a"))
          (Sim.with_write_fault Sim.unavailable Sim.empty_cluster)
    ∧ records k' (getReconciliationConditionFromError (Some Sim.unavailable))
    ∧ Sim.kube_status
        (Eff.world (Sim.upsert_pass (IsK Sim.conn_a)
                      (Sim.with_write_fault Sim.unavailable Sim.empty_cluster)))
        !! "conn-a" = Some (StatusConditions k').
Proof.
  assert (GetTeleportResource Sim.reconciler (GetName (ToTeleport Sim.conn_a))
            (Sim.with_write_fault Sim.unavailable Sim.empty_cluster)
          = ((None, Some (Sim.notFound "conn-a")),
             Sim.with_write_fault Sim.unavailable Sim.empty_cluster)) as Hget
    by reflexivity.
  destruct (status_written_after_get Sim.clock Sim.reconciler Sim.conn_a
              (Sim.with_write_fault Sim.unavailable Sim.empty_cluster)
              None (Some (Sim.notFound "conn-a"))
              (Sim.with_write_fault Sim.unavailable Sim.empty_cluster)
              Hget eq_refl)
    as (k' & pre & statusErr & Hobj & Hwrite & Hret & Hcalls & Hpre & Hconds & _ & Hrec).
  exists k', pre, statusErr. split_and!.
  - exact Hobj.
  - exact Hwrite.
  - exact Hret.
  - exact Hcalls.
  - exact Hpre.
  - exact Hconds.
  - exact (Hrec eq_refl).
  - pose proof Hobj as Hk. vm_compute in Hk. injection Hk as Hk. subst k'.
    reflexivity.
Defined.

(** C7 at work: the log of the pass that creates "conn-a", split around its
    create call. *)
Lemma in_pass_ordering_witness :
  (∃ existing,
      EvCheckOwnership existing
      ∈ take 2 (Eff.calls (Sim.upsert_pass (IsK Sim.conn_a) Sim.empty_cluster)))
  ∧ Forall (λ e, is_status_persist e = false)
      (take 2 (Eff.calls (Sim.upsert_pass (IsK Sim.conn_a) Sim.empty_cluster)))
  ∧ (∃ k', EvStatusUpdate k'
           ∈ drop 3 (Eff.calls (Sim.upsert_pass (IsK Sim.conn_a) Sim.empty_cluster)))
  ∧ Forall (λ e, is_mutation e = false ∧ is_ownership_check e = false)
      (drop 3 (Eff.calls (Sim.upsert_pass (IsK Sim.conn_a) Sim.empty_cluster))).
Proof.
  apply (in_pass_ordering Sim.clock Sim.reconciler (IsK Sim.conn_a) Sim.empty_cluster
           (take 2 (Eff.calls (Sim.upsert_pass (IsK Sim.conn_a) Sim.empty_cluster)))
           (EvCreate (SetOrigin OriginKubernetes (ToTeleport Sim.conn_a)))
           (drop 3 (Eff.calls (Sim.upsert_pass (IsK Sim.conn_a) Sim.empty_cluster)))).
  - reflexivity.
  - reflexivity.
Defined.

(** C8 at work: "conn-a" was synced by an earlier pass, then replaced in
    Teleport by a hand-made connector. The denied pass leaves the
    reconciliation condition of the earlier pass, still true. *)
Lemma denied_keeps_reconciliation_witness :
  ∃ k1,
    Eff.value (Sim.upsert_pass (IsK Sim.conn_a_synced) Sim.foreign_cluster)
    = ((checkOwnership (Some Sim.manual_conn_a)).2, IsK k1)
    ∧ (cStatus <$> FindStatusCondition (StatusConditions k1) ConditionTypeOwnership)
      = Some ConditionFalse
    ∧ FindStatusCondition (StatusConditions k1) ConditionTypeReconciliation
      = FindStatusCondition (StatusConditions Sim.conn_a_synced) ConditionTypeReconciliation
    ∧ (cStatus <$> FindStatusCondition (StatusConditions k1) ConditionTypeReconciliation)
      = Some ConditionTrue.
Proof.
  assert (GetTeleportResource Sim.reconciler (GetName (ToTeleport Sim.conn_a_synced))
            Sim.foreign_cluster
          = ((Some Sim.manual_conn_a, None), Sim.foreign_cluster)) as Hget
    by reflexivity.
  assert (checkOwnership (Some Sim.manual_conn_a)
          = ((checkOwnership (Some Sim.manual_conn_a)).1,
             Some (Error OwnershipConflict "resource conn-a is not owned by the operator")))
    as Hown by reflexivity.
  destruct (denied_keeps_reconciliation Sim.clock Sim.reconciler Sim.conn_a_synced
              Sim.foreign_cluster (Some Sim.manual_conn_a) None Sim.foreign_cluster
              _ _ Hget eq_refl Hown)
    as (k1 & Hvalue & Hconds & _ & _ & Hrecon & _).
  exists k1. split_and!.
  - exact Hvalue.
  - rewrite Hconds. reflexivity.
  - exact Hrecon.
  - rewrite Hrecon. reflexivity.
Defined.

(** ** More on the passes of the engine *)

Lemma SetStatusCondition_types now cs c :
  ∃ tail, map cType (SetStatusCondition now cs c) = map cType cs ++ tail
          ∧ (length tail ≤ 1)%nat.
Proof.
  induction cs as [|d cs (tail & IH & Hlen)]; simpl.
  - exists [cType (stampCondition now c)]. split; [done|simpl; lia].
  - destruct (decide (cType d = cType c)); simpl.
    + exists []. split; [by rewrite app_nil_r|simpl; lia].
    + exists tail. split; [by rewrite IH|done].
Qed.

Section EngineMore.
Context {B T K : Type} `{ResourceWithOrigin T} `{TeleportKubernetesResource T K}.
Variable Now : B → Z.
Implicit Types (r : @TeleportResourceReconciler B T K) (k : K) (w : B).

Lemma withCondition_conditions now k c :
  StatusConditions (withCondition now k c)
  = SetStatusCondition now (StatusConditions k) c.
Proof. unfold withCondition. by rewrite StatusConditions_Set. Qed.

(** X1. No upsert pass calls the bound delete function, whatever the object,
    the backend and the outcome of its calls. *)
Theorem Upsert_never_deletes r obj w :
  Forall (λ ev, is_delete ev = false) (Eff.calls (Upsert Now r obj w)).
Proof.
  destruct obj as [k|ty nm]; [|constructor].
  rewrite Upsert_IsK; simpl.
  destruct (GetTeleportResource r _ w) as [[existing getErr] w1].
  destruct (notnil getErr && negb (IsNotFound getErr)); [repeat constructor|].
  destruct (checkOwnership existing) as [c [e|]].
  - destruct (StatusUpdate _ _ w1) as [[se|] w2]; repeat constructor.
  - destruct (mutationCall r _ _ w1) as [mutErr w2].
    destruct (StatusUpdate _ _ w2) as [[se|] w3];
      destruct mutErr as [e|]; unfold mutationEvent;
      destruct (negb (negb (IsNotFound getErr))); repeat constructor.
Qed.

(** X2. A pass makes at most one call of each kind: one get, one ownership
    check, one create or update, one status write; and a pass on an object
    of the expected type makes exactly one get call. *)
Theorem Upsert_call_counts r obj w :
  (count is_get (Eff.calls (Upsert Now r obj w)) ≤ 1
   ∧ count is_ownership_check (Eff.calls (Upsert Now r obj w)) ≤ 1
   ∧ count is_mutation (Eff.calls (Upsert Now r obj w)) ≤ 1
   ∧ count is_status_persist (Eff.calls (Upsert Now r obj w)) ≤ 1
   ∧ count is_get (Eff.calls (Upsert Now r obj w))
     = match obj with IsK _ => 1 | NotK _ _ => 0 end)%nat.
Proof.
  destruct obj as [k|ty nm]; [|unfold count; simpl; lia].
  rewrite Upsert_IsK; simpl.
  destruct (GetTeleportResource r _ w) as [[existing getErr] w1].
  destruct (notnil getErr && negb (IsNotFound getErr)); [unfold count; simpl; lia|].
  destruct (checkOwnership existing) as [c [e|]].
  - destruct (StatusUpdate _ _ w1) as [[se|] w2]; unfold count; simpl; lia.
  - destruct (mutationCall r _ _ w1) as [mutErr w2].
    destruct (StatusUpdate _ _ w2) as [[se|] w3];
      destruct mutErr as [e|]; unfold mutationEvent, count;
      destruct (negb (negb (IsNotFound getErr))); simpl; lia.
Qed.

(** X3. A pass that returns nil did all of its work: the object was of the
    expected type, the get call succeeded or reported NotFound, the ownership
    check raised no error, the create or update call returned nil, and the
    status write, made last on the object the pass leaves, returned nil
    too. *)
Theorem Upsert_nil_means_synced r obj w :
  (Eff.value (Upsert Now r obj w)).1 = None →
  ∃ k existing getErr w1 w2 k2,
    obj = IsK k
    ∧ GetTeleportResource r (GetName (ToTeleport k)) w = ((existing, getErr), w1)
    ∧ (getErr = None ∨ IsNotFound getErr = true)
    ∧ (checkOwnership existing).2 = None
    ∧ mutationCall r (negb (IsNotFound getErr))
        (SetOrigin OriginKubernetes (ToTeleport k)) w1 = (None, w2)
    ∧ (Eff.value (Upsert Now r obj w)).2 = IsK k2
    ∧ StatusUpdate (Client (Base r)) k2 w2 = (None, Eff.world (Upsert Now r obj w))
    ∧ Eff.calls (Upsert Now r obj w) =
        [EvGet (GetName (ToTeleport k)); EvCheckOwnership existing;
         mutationEvent (negb (IsNotFound getErr))
           (SetOrigin OriginKubernetes (ToTeleport k));
         EvStatusUpdate k2].
Proof.
  destruct obj as [k|ty nm]; [|discriminate].
  rewrite Upsert_IsK; simpl.
  destruct (GetTeleportResource r _ w) as [[existing getErr] w1] eqn:Hget.
  destruct (notnil getErr && negb (IsNotFound getErr)) eqn:Hguard.
  { simpl. intros ->. discriminate. }
  destruct (checkOwnership existing) as [c [e|]] eqn:Hown.
  { destruct (StatusUpdate _ _ w1). discriminate. }
  destruct (mutationCall r _ _ w1) as [mutErr w2] eqn:Hmut.
  destruct (StatusUpdate _ _ w2) as [statusErr w3] eqn:Hst.
  destruct mutErr as [e|]; [discriminate|].
  unfold Eff.value, Eff.world, Eff.calls; simpl. intros ->.
  eexists k, existing, getErr, w1, w2, _. split_and!; try done.
  - destruct getErr as [ge|]; [right|by left].
    simpl in *. by apply negb_false_iff in Hguard.
  - by rewrite Hown.
Qed.

(** X4. A pass never drops or reorders the conditions of the object: the
    types of the conditions it came with are a prefix of the types of the
    conditions it leaves, and at most two conditions are added. *)
Theorem Upsert_keeps_condition_types r k w :
  ∃ k',
    (Eff.value (Upsert Now r (IsK k) w)).2 = IsK k'
    ∧ map cType (StatusConditions k) `prefix_of` map cType (StatusConditions k')
    ∧ (length (StatusConditions k') ≤ length (StatusConditions k) + 2)%nat.
Proof.
  rewrite Upsert_IsK; simpl.
  destruct (GetTeleportResource r _ w) as [[existing getErr] w1].
  destruct (notnil getErr && negb (IsNotFound getErr)).
  { exists k. split_and!; [done|done|lia]. }
  destruct (checkOwnership existing) as [c ownErr].
  destruct (SetStatusCondition_types (Now w1) (StatusConditions k) c)
    as (t1 & Ht1 & Hl1).
  assert (length (StatusConditions (withCondition (Now w1) k c))
          = length (StatusConditions k) + length t1)%nat as Hlen1.
  { rewrite <-(length_map cType), withCondition_conditions, Ht1.
    by rewrite length_app, length_map. }
  destruct ownErr as [e|].
  - destruct (StatusUpdate _ _ w1) as [statusErr w2].
    exists (withCondition (Now w1) k c). split_and!; [done| |lia].
    rewrite withCondition_conditions, Ht1. by exists t1.
  - destruct (mutationCall r _ _ w1) as [mutErr w2].
    set (k1 := withCondition (Now w1) k c) in *.
    set (rc := getReconciliationConditionFromError mutErr).
    destruct (SetStatusCondition_types (Now w2) (StatusConditions k1) rc)
      as (t2 & Ht2 & Hl2).
    assert (map cType (StatusConditions (withCondition (Now w2) k1 rc))
            = map cType (StatusConditions k) ++ (t1 ++ t2)) as Htypes.
    { rewrite withCondition_conditions, Ht2. unfold k1.
      by rewrite withCondition_conditions, Ht1, <-app_assoc. }
    assert (length (StatusConditions (withCondition (Now w2) k1 rc))
            ≤ length (StatusConditions k) + 2)%nat as Hlen.
    { rewrite <-(length_map cType), Htypes, !length_app, length_map. lia. }
    destruct (StatusUpdate _ _ w2) as [statusErr w3].
    destruct mutErr as [e|];
      (exists (withCondition (Now w2) k1 rc); split_and!;
       [done|rewrite Htypes; by exists (t1 ++ t2)|done]).
Qed.

(** X5. A pass leaves alone every condition that is neither the ownership
    nor the reconciliation condition: for any other type, the first
    condition of that type is the same before and after, on every path. *)
Theorem Upsert_keeps_foreign_conditions r k w ty :
  ty ≠ ConditionTypeOwnership →
  ty ≠ ConditionTypeReconciliation →
  ∃ k',
    (Eff.value (Upsert Now r (IsK k) w)).2 = IsK k'
    ∧ FindStatusCondition (StatusConditions k') ty
      = FindStatusCondition (StatusConditions k) ty.
Proof.
  intros Hown Hrec.
  rewrite Upsert_IsK; simpl.
  destruct (GetTeleportResource r _ w) as [[existing getErr] w1].
  destruct (notnil getErr && negb (IsNotFound getErr)); [by exists k|].
  pose proof (checkOwnership_type existing) as Hty.
  destruct (checkOwnership existing) as [c ownErr]; simpl in Hty.
  assert (FindStatusCondition (StatusConditions (withCondition (Now w1) k c)) ty
          = FindStatusCondition (StatusConditions k) ty) as H1.
  { rewrite withCondition_conditions.
    apply FindStatusCondition_Set_other. by rewrite Hty. }
  destruct ownErr as [e|].
  - destruct (StatusUpdate _ _ w1) as [statusErr w2]. by eexists.
  - destruct (mutationCall r _ _ w1) as [mutErr w2].
    destruct (StatusUpdate _ _ w2) as [statusErr w3].
    destruct mutErr as [e|]; (eexists; split; [done|]);
      rewrite withCondition_conditions, FindStatusCondition_Set_other;
      try done; by rewrite getReconciliationConditionFromError_type.
Qed.

(** A get call that reports NotFound and returns no resource leads into the
    create branch. *)
Lemma Upsert_missing_runs_create r k w e w1 :
  GetTeleportResource r (GetName (ToTeleport k)) w = ((None, Some e), w1) →
  err_class e = NotFound →
  ranCreate r k w1 (Upsert Now r (IsK k) w).
Proof.
  intros Hget Hclass. unfold ranCreate.
  rewrite Upsert_IsK; simpl. rewrite Hget; simpl.
  rewrite bool_decide_eq_true_2 by done; simpl.
  unfold mutationCall; simpl.
  destruct (CreateTeleportResource r _ w1) as [mutErr w2]; simpl.
  destruct (StatusUpdate _ _ w2) as [statusErr w3] eqn:Hst.
  destruct mutErr as [e'|]; eexists _, statusErr; by rewrite Hst.
Qed.

End EngineMore.

(** X3 at work: the pass that creates "conn-a" returns nil. *)
Lemma Upsert_nil_means_synced_witness :
  ∃ k existing getErr w1 w2 k2,
    IsK Sim.conn_a = IsK k
    ∧ GetTeleportResource Sim.reconciler (GetName (ToTeleport k)) Sim.empty_cluster
      = ((existing, getErr), w1)
    ∧ (getErr = None ∨ IsNotFound getErr = true)
    ∧ (checkOwnership existing).2 = None
    ∧ mutationCall Sim.reconciler (negb (IsNotFound getErr))
        (SetOrigin OriginKubernetes (ToTeleport k)) w1 = (None, w2)
    ∧ (Eff.value (Sim.upsert_pass (IsK Sim.conn_a) Sim.empty_cluster)).2 = IsK k2
    ∧ StatusUpdate (Client (Base Sim.reconciler)) k2 w2
      = (None, Eff.world (Sim.upsert_pass (IsK Sim.conn_a) Sim.empty_cluster))
    ∧ Eff.calls (Sim.upsert_pass (IsK Sim.conn_a) Sim.empty_cluster) =
        [EvGet (GetName (ToTeleport k)); EvCheckOwnership existing;
         mutationEvent (negb (IsNotFound getErr))
           (SetOrigin OriginKubernetes (ToTeleport k));
         EvStatusUpdate k2].
Proof.
  apply (Upsert_nil_means_synced Sim.clock Sim.reconciler (IsK Sim.conn_a)
           Sim.empty_cluster).
  reflexivity.
Defined.

(** X5 at work: a condition set by another controller survives the denied
    pass on "conn-a". *)
Lemma Upsert_keeps_foreign_conditions_witness :
  ∃ k',
    (Eff.value (Sim.upsert_pass (IsK SimAdapters.conn_a_ready) Sim.foreign_cluster)).2
    = IsK k'
    ∧ FindStatusCondition (StatusConditions k') "Ready"
      = FindStatusCondition (StatusConditions SimAdapters.conn_a_ready) "Ready".
Proof.
  apply (Upsert_keeps_foreign_conditions Sim.clock Sim.reconciler
           SimAdapters.conn_a_ready Sim.foreign_cluster "Ready").
  - vm_compute. discriminate.
  - vm_compute. discriminate.
Defined.

(** ** Conditions that are already right *)

Lemma SetStatusCondition_noop now cs c :
  agrees cs c → SetStatusCondition now cs c = cs.
Proof.
  intros (d & Hfind & Hs & Hr & Hm & Hg).
  induction cs as [|e cs IH]; [discriminate|]. simpl in *.
  destruct (decide (cType e = cType c)) as [Heq|Hne].
  - injection Hfind as ->. f_equal.
    unfold mergeCondition. rewrite bool_decide_eq_false_2 by (by intros []).
    destruct d; simpl in *. by subst.
  - f_equal. by apply IH.
Qed.

(** X6. A pass whose verdicts are already recorded changes no condition:
    when the conditions of the object agree with the verdict of the ownership
    check and, if the check raised no error, with the outcome of the create
    or update call, the pass leaves the conditions exactly as they were,
    transition times included, whatever the clock shows. *)
Theorem Upsert_settled_conditions_unchanged
    {B T K : Type} `{ResourceWithOrigin T} `{TeleportKubernetesResource T K}
    (Now : B → Z) (r : @TeleportResourceReconciler B T K) (k : K) (w : B)
    existing getErr w1 :
  GetTeleportResource r (GetName (ToTeleport k)) w = ((existing, getErr), w1) →
  notnil getErr && negb (IsNotFound getErr) = false →
  agrees (StatusConditions k) (checkOwnership existing).1 →
  ((checkOwnership existing).2 = None →
   agrees (StatusConditions k)
     (getReconciliationConditionFromError
        (mutationCall r (negb (IsNotFound getErr))
           (SetOrigin OriginKubernetes (ToTeleport k)) w1).1)) →
  ∃ k',
    (Eff.value (Upsert Now r (IsK k) w)).2 = IsK k'
    ∧ StatusConditions k' = StatusConditions k.
Proof.
  intros Hget Hguard Hown Hrec.
  rewrite Upsert_IsK; simpl. rewrite Hget; simpl. rewrite Hguard.
  destruct (checkOwnership existing) as [c ownErr]; simpl in *.
  assert (StatusConditions (withCondition (Now w1) k c) = StatusConditions k) as H1.
  { unfold withCondition. rewrite StatusConditions_Set.
    by apply SetStatusCondition_noop. }
  destruct ownErr as [e|].
  - destruct (StatusUpdate _ _ w1) as [statusErr w2]. by eexists.
  - specialize (Hrec eq_refl).
    destruct (mutationCall r _ _ w1) as [mutErr w2]; simpl in *.
    assert (StatusConditions
              (withCondition (Now w2) (withCondition (Now w1) k c)
                 (getReconciliationConditionFromError mutErr))
            = StatusConditions k) as H2.
    { unfold withCondition at 1. rewrite StatusConditions_Set, H1.
      by apply SetStatusCondition_noop. }
    destruct (StatusUpdate _ _ w2) as [statusErr w3].
    destruct mutErr as [e|]; by eexists.
Qed.

(** X6 at work: the engine's own "conn-a" is reconciled again, an hour
    later on the clock of the cluster. *)
Lemma Upsert_settled_conditions_unchanged_witness :
  ∃ k',
    (Eff.value (Upsert (λ w, Sim.clock w + 3600) Sim.reconciler
                  (IsK SimAdapters.conn_a_settled) SimAdapters.owned_cluster)).2 = IsK k'
    ∧ StatusConditions k' = StatusConditions SimAdapters.conn_a_settled.
Proof.
  apply (Upsert_settled_conditions_unchanged (λ w, Sim.clock w + 3600) Sim.reconciler
           SimAdapters.conn_a_settled SimAdapters.owned_cluster
           (Some SimAdapters.own_conn_a) None SimAdapters.owned_cluster).
  - reflexivity.
  - reflexivity.
  - eexists. split; [reflexivity|]. by split_and!.
  - intros _. eexists. split; [reflexivity|]. by split_and!.
Defined.

(** ** The adapters under the engine *)

Section AdaptersMore.
Context {B OIDCConnector SAMLConnector GithubConnector : Type}.
Context {TeleportOIDCConnector TeleportSAMLConnector TeleportGithubConnector : Type}.
Context `{ResourceWithOrigin OIDCConnector} `{ResourceWithOrigin SAMLConnector}
        `{ResourceWithOrigin GithubConnector}.
Context `{TeleportKubernetesResource OIDCConnector TeleportOIDCConnector}
        `{TeleportKubernetesResource SAMLConnector TeleportSAMLConnector}
        `{TeleportKubernetesResource GithubConnector TeleportGithubConnector}.
Variable Now : B → Z.
Implicit Types
  (accessor : @ClientAccessor B OIDCConnector SAMLConnector GithubConnector) (w : B).

(** X7. When the client accessor fails with an error that is not NotFound,
    an upsert pass of any of the three adapters stops at its get call: it
    returns the accessor's error, leaves the world as the accessor left it,
    makes no other call and does not touch the object. *)
Theorem accessor_failure_aborts_upsert accessor w e w1 :
  accessor w = (inr e, w1) →
  err_class e ≠ NotFound →
  (∀ client (k : TeleportOIDCConnector),
     Upsert Now (OIDC_TeleportResourceReconciler (NewOIDCConnectorReconciler client accessor))
       (IsK k) w
     = ((Some e, IsK k), w1, [EvGet (GetName (ToTeleport k))]))
  ∧ (∀ client (k : TeleportSAMLConnector),
       Upsert Now (SAML_TeleportResourceReconciler (NewSAMLConnectorReconciler client accessor))
         (IsK k) w
       = ((Some e, IsK k), w1, [EvGet (GetName (ToTeleport k))]))
  ∧ (∀ client (k : TeleportGithubConnector),
       Upsert Now
         (Github_TeleportResourceReconciler (NewGithubConnectorReconciler client accessor))
         (IsK k) w
       = ((Some e, IsK k), w1, [EvGet (GetName (ToTeleport k))])).
Proof.
  intros Hacc Hclass.
  split_and!; intros client k; rewrite Upsert_IsK; simpl;
    unfold GetOIDCConnector, GetSAMLConnector, GetGithubConnector, withTeleportClient;
    rewrite Hacc; simpl; by rewrite bool_decide_eq_false_2.
Qed.

(** X8. An accessor failure of class NotFound is taken for a missing
    resource: the pass goes on as if the get call had found nothing, checks
    ownership of no resource and runs the create branch in the world the
    failure left. There the adapter's upsert asks the accessor for the client
    again and, if it gets one, makes the client's upsert call; the status is
    then written in the world that left, and the pass returns the error of
    that second attempt or, when there is none, the result of the status
    write. *)
Theorem accessor_NotFound_read_as_missing accessor w e w1 :
  accessor w = (inr e, w1) →
  err_class e = NotFound →
  (∀ client (k : TeleportOIDCConnector),
     let r := OIDC_TeleportResourceReconciler (NewOIDCConnectorReconciler client accessor) in
     let t := SetOrigin OriginKubernetes (ToTeleport k) in
     ranCreate r k w1 (Upsert Now r (IsK k) w)
     ∧ CreateTeleportResource r t w1
       = match accessor w1 with
         | (inl teleportClient, w2) => client_UpsertOIDCConnector teleportClient t w2
         | (inr err, w2) => (Some err, w2)
         end
     ∧ primaryError r k w = (CreateTeleportResource r t w1).1)
  ∧ (∀ client (k : TeleportSAMLConnector),
       let r := SAML_TeleportResourceReconciler (NewSAMLConnectorReconciler client accessor) in
       let t := SetOrigin OriginKubernetes (ToTeleport k) in
       ranCreate r k w1 (Upsert Now r (IsK k) w)
       ∧ CreateTeleportResource r t w1
         = match accessor w1 with
           | (inl teleportClient, w2) => client_UpsertSAMLConnector teleportClient t w2
           | (inr err, w2) => (Some err, w2)
           end
       ∧ primaryError r k w = (CreateTeleportResource r t w1).1)
  ∧ (∀ client (k : TeleportGithubConnector),
       let r :=
         Github_TeleportResourceReconciler (NewGithubConnectorReconciler client accessor) in
       let t := SetOrigin OriginKubernetes (ToTeleport k) in
       ranCreate r k w1 (Upsert Now r (IsK k) w)
       ∧ CreateTeleportResource r t w1
         = match accessor w1 with
           | (inl teleportClient, w2) => client_UpsertGithubConnector teleportClient t w2
           | (inr err, w2) => (Some err, w2)
           end
       ∧ primaryError r k w = (CreateTeleportResource r t w1).1).
Proof.
  intros Hacc Hclass.
  split_and!; intros client k r t; (split_and!;
    [ apply (Upsert_missing_runs_create Now r k w e w1); [|done];
      subst r; simpl;
      unfold GetOIDCConnector, GetSAMLConnector, GetGithubConnector, withTeleportClient;
      by rewrite Hacc
    | subst r; simpl;
      unfold UpsertOIDCConnector, UpsertSAMLConnector, UpsertGithubConnector,
        withTeleportClient;
      by destruct (accessor w1) as [[teleportClient|err] w2]
    | unfold primaryError; subst r; simpl;
      unfold GetOIDCConnector, GetSAMLConnector, GetGithubConnector,
        withTeleportClient at 1;
      rewrite Hacc; simpl; by rewrite bool_decide_eq_true_2 ]).
Qed.

End AdaptersMore.

(** X7 at work: the Teleport client is not ready when "conn-a" is
    reconciled. *)
Lemma accessor_failure_aborts_upsert_witness :
  Upsert Sim.clock (SimAdapters.oidc (SimAdapters.broken SimAdapters.not_connected))
    (IsK Sim.conn_a) Sim.empty_cluster
  = ((Some SimAdapters.not_connected, IsK Sim.conn_a), Sim.empty_cluster,
     [EvGet (GetName (ToTeleport Sim.conn_a))]).
Proof.
  apply (accessor_failure_aborts_upsert Sim.clock
           (SimAdapters.broken SimAdapters.not_connected) Sim.empty_cluster
           SimAdapters.not_connected Sim.empty_cluster).
  - reflexivity.
  - vm_compute. discriminate.
Defined.

(** X8 at work: the accessor fails with a NotFound error; the pass runs into
    the create branch, where the accessor fails again; that error is what the
    pass returns, and it is written to the status of "conn-a". *)
Lemma accessor_NotFound_read_as_missing_witness :
  ranCreate (SimAdapters.oidc (SimAdapters.broken SimAdapters.no_identity))
    Sim.conn_a Sim.empty_cluster
    (Upsert Sim.clock (SimAdapters.oidc (SimAdapters.broken SimAdapters.no_identity))
       (IsK Sim.conn_a) Sim.empty_cluster)
  ∧ (Eff.value
       (Upsert Sim.clock (SimAdapters.oidc (SimAdapters.broken SimAdapters.no_identity))
          (IsK Sim.conn_a) Sim.empty_cluster)).1 = Some SimAdapters.no_identity
  ∧ (map cStatus <$>
       Sim.kube_status
         (Eff.world
            (Upsert Sim.clock (SimAdapters.oidc (SimAdapters.broken SimAdapters.no_identity))
               (IsK Sim.conn_a) Sim.empty_cluster)) !! "conn-a")
    = Some [ConditionTrue; ConditionFalse].
Proof.
  destruct (accessor_NotFound_read_as_missing Sim.clock
              (SimAdapters.broken SimAdapters.no_identity) Sim.empty_cluster
              SimAdapters.no_identity Sim.empty_cluster eq_refl eq_refl)
    as [Hoidc _].
  destruct (Hoidc Sim.kube Sim.conn_a) as (Hran & _ & _).
  split_and!; [exact Hran|reflexivity|reflexivity].
Defined.

(** ** Hardware keys *)

Lemma connected_app held l1 l2 :
  YubiKey.connected held (l1 ++ l2)
  = YubiKey.connected held l1 ≫= λ held', YubiKey.connected held' l2.
Proof.
  revert held. induction l1 as [|ev l1 IH]; intros held; [done|].
  destruct ev, held as [c'|]; simpl; try done; try apply IH.
  destruct (decide (c' = card)); [apply IH|done].
Qed.

Lemma disciplined_app l1 l2 :
  YubiKey.disciplined l1 → YubiKey.disciplined l2 → YubiKey.disciplined (l1 ++ l2).
Proof.
  unfold YubiKey.disciplined. intros H1 H2. by rewrite connected_app, H1.
Qed.

Lemma writes_nothing_app l1 l2 :
  YubiKey.writes_nothing l1 → YubiKey.writes_nothing l2 →
  YubiKey.writes_nothing (l1 ++ l2).
Proof. apply Forall_app_2. Qed.

(** The log of a function that opens the card, reads and closes. *)
Lemma read_session_quiet c l :
  l = [YubiKey.EvOpenFailed c] ∨ l = [YubiKey.EvOpened c; YubiKey.EvClosed c] →
  YubiKey.disciplined l ∧ YubiKey.writes_nothing l.
Proof.
  intros [->| ->]; (split; [|by repeat constructor]);
    unfold YubiKey.disciplined; simpl; [done|by rewrite decide_True].
Qed.

Ltac eff_unfold :=
  unfold mbind, mret, Eff_bind, Eff_ret, Eff.bind, Eff.ret, Eff.tell, Eff.lift,
    Eff.ask; simpl.

(** Case analysis on the next call that reaches the card. *)
Ltac dev_step :=
  match goal with
  | |- context [YubiKey.piv_Cards ?d ?w] =>
      destruct (YubiKey.piv_Cards d w) as [[?|?] ?]
  | |- context [YubiKey.dev_open ?d ?c ?w] =>
      destruct (YubiKey.dev_open d c w) as [[?|?] ?]
  | |- context [YubiKey.yk_Serial ?d ?c ?w] =>
      destruct (YubiKey.yk_Serial d c w) as [[?|?] ?]
  | |- context [YubiKey.yk_Certificate ?d ?c ?s ?w] =>
      destruct (YubiKey.yk_Certificate d c s w) as [[[?|] [?|]] ?]
  | |- context [YubiKey.yk_GenerateKey ?d ?c ?s ?o ?w] =>
      destruct (YubiKey.yk_GenerateKey d c s o w) as [[?|?] ?]
  | |- context [YubiKey.yk_PrivateKey ?d ?c ?s ?p ?w] =>
      destruct (YubiKey.yk_PrivateKey d c s p w) as [[?|?] ?]
  | |- context [YubiKey.yk_SetCertificate ?d ?c ?s ?x ?w] =>
      destruct (YubiKey.yk_SetCertificate d c s x w) as [[?|] ?]
  | |- context [YubiKey.yk_Attest ?d ?c ?s ?w] =>
      destruct (YubiKey.yk_Attest d c s w) as [[?|?] ?]
  | |- context [YubiKey.yk_AttestationCertificate ?d ?c ?w] =>
      destruct (YubiKey.yk_AttestationCertificate d c w) as [[?|?] ?]
  | |- context [YubiKey.priv_Sign ?d ?p ?x ?o ?w] =>
      destruct (YubiKey.priv_Sign d p x o w) as [[?|?] ?]
  | |- context [YubiKey.rand_Int ?d ?n ?w] =>
      destruct (YubiKey.rand_Int d n w) as [[?|?] ?]
  | |- context [YubiKey.x509_CreateCertificate ?d ?c ?p ?q ?w] =>
      destruct (YubiKey.x509_CreateCertificate d c p q w) as [[?|?] ?]
  end; simpl.

Section KeysFacts.
Context {D Conn Pub Priv Statement PrivateKey : Type}.
Variable dev : @YubiKey.Device D Conn Pub Priv.
Variable lib : @YubiKey.Library Pub Statement PrivateKey.
Import YubiKey.

Lemma newYubiKey_session c w :
  Eff.calls (newYubiKey dev c w) = [EvOpenFailed c]
  ∨ Eff.calls (newYubiKey dev c w) = [EvOpened c; EvClosed c].
Proof.
  unfold newYubiKey, open, deferClose, close, wrapErr, Eff.calls. eff_unfold.
  repeat dev_step; auto.
Qed.

Lemma newYubiKey_card c w y :
  Eff.value (newYubiKey dev c w) = inl y → card y = c.
Proof.
  unfold newYubiKey, open, deferClose, close, wrapErr, Eff.value. eff_unfold.
  repeat dev_step; intros; simplify_eq; done.
Qed.

Lemma getPrivateKey_session y slot w :
  Eff.calls (getPrivateKey dev lib y slot w) = [EvOpenFailed (card y)]
  ∨ Eff.calls (getPrivateKey dev lib y slot w) = [EvOpened (card y); EvClosed (card y)].
Proof.
  unfold getPrivateKey, open, deferClose, close, wrapErr, Eff.calls. eff_unfold.
  repeat dev_step; auto;
    destruct (bool_decide _ || negb _); simpl; auto.
Qed.

Lemma getPrivateKey_key y slot w priv :
  Eff.value (getPrivateKey dev lib y slot w) = inl priv →
  key_yubiKey priv = y ∧ key_pivSlot priv = slot.
Proof.
  unfold getPrivateKey, open, deferClose, close, wrapErr, newYubiKeyPrivateKey,
    Eff.value. eff_unfold.
  repeat dev_step; try discriminate;
    destruct (bool_decide _ || negb _); simpl; intros; simplify_eq; done.
Qed.

Lemma generatePrivateKey_disciplined y slot touchPolicy w :
  disciplined (Eff.calls (generatePrivateKey dev lib y slot touchPolicy w)).
Proof.
  unfold generatePrivateKey, selfSignedTeleportClientCertificate, open, deferClose,
    close, wrapErr, newYubiKeyPrivateKey, Eff.calls, disciplined. eff_unfold.
  repeat dev_step; try done; by rewrite decide_True.
Qed.

Lemma generatePrivateKey_key y slot touchPolicy w priv :
  Eff.value (generatePrivateKey dev lib y slot touchPolicy w) = inl priv →
  key_yubiKey priv = y ∧ key_pivSlot priv = slot
  ∧ EvGenerateKey slot {| opt_Algorithm := AlgorithmEC256;
                          opt_PINPolicy := PINPolicyNever;
                          opt_TouchPolicy := touchPolicy |}
    ∈ Eff.calls (generatePrivateKey dev lib y slot touchPolicy w).
Proof.
  unfold generatePrivateKey, selfSignedTeleportClientCertificate, open, deferClose,
    close, wrapErr, newYubiKeyPrivateKey, Eff.calls, Eff.value. eff_unfold.
  repeat dev_step; try discriminate.
  intros; simplify_eq. split_and!; [done..|]. set_solver.
Qed.

(** The loop of [findYubiKeyCards] is a filter. *)
Lemma foldl_append_filter (P : string → bool) (cards acc : list string) :
  foldl (λ yubiKeyCards cardName,
           if P cardName then yubiKeyCards ++ [cardName] else yubiKeyCards) acc cards
  = acc ++ List.filter P cards.
Proof.
  revert acc. induction cards as [|c cards IH]; intros acc; simpl.
  - by rewrite app_nil_r.
  - rewrite IH. destruct (P c); [by rewrite <-app_assoc|done].
Qed.

Lemma findYubiKeyCards_run w :
  findYubiKeyCards dev lib w =
  match piv_Cards dev w with
  | (inl cards, w1) =>
      (inl (List.filter (λ c, Contains (strings_ToLower lib c) PIVCardTypeYubiKey) cards),
       w1, [])
  | (inr err, w1) => (inr err, w1, [])
  end.
Proof.
  unfold findYubiKeyCards, wrapErr. eff_unfold.
  destruct (piv_Cards dev w) as [[cards|err] w1]; simpl; [|done].
  by rewrite (foldl_append_filter
                (λ c, Contains (strings_ToLower lib c) PIVCardTypeYubiKey)).
Qed.

(** One turn of the loop of [findYubiKey]. *)
Lemma findYubiKeyLoop_cons serial c rest w :
  findYubiKeyLoop dev lib serial (c :: rest) w =
  match newYubiKey dev c w with
  | (inr err, w1, l1) => (inr err, w1, l1)
  | (inl y, w1, l1) =>
      if bool_decide (serial = 0%N) || bool_decide (serialNumber y = serial)
      then (inl y, w1, l1)
      else
        (Eff.value (findYubiKeyLoop dev lib serial rest w1),
         Eff.world (findYubiKeyLoop dev lib serial rest w1),
         l1 ++ Eff.calls (findYubiKeyLoop dev lib serial rest w1))
  end.
Proof.
  simpl. unfold mbind, Eff_bind, Eff.bind, wrapErr, mret, Eff_ret, Eff.ret.
  destruct (newYubiKey dev c w) as [[[y|err] w1] l1]; simpl.
  - destruct (bool_decide (serial = 0%N) || bool_decide (serialNumber y = serial));
      simpl; [by rewrite app_nil_r|].
    by destruct (findYubiKeyLoop dev lib serial rest w1) as [[? ?] ?].
  - by rewrite app_nil_r.
Qed.

Lemma findYubiKeyLoop_quiet serial cards w :
  disciplined (Eff.calls (findYubiKeyLoop dev lib serial cards w))
  ∧ writes_nothing (Eff.calls (findYubiKeyLoop dev lib serial cards w)).
Proof.
  revert w. induction cards as [|c rest IH]; intros w.
  - split; [done|constructor].
  - rewrite findYubiKeyLoop_cons.
    pose proof (read_session_quiet c _ (newYubiKey_session c w)) as [Hd Hw].
    destruct (newYubiKey dev c w) as [[[y|err] w1] l1]; [|done].
    destruct (bool_decide (serial = 0%N) || bool_decide (serialNumber y = serial));
      [done|].
    destruct (IH w1) as [Hd' Hw'].
    split; [by apply disciplined_app|by apply writes_nothing_app].
Qed.

Lemma findYubiKeyLoop_found serial cards w y :
  Eff.value (findYubiKeyLoop dev lib serial cards w) = inl y →
  card y ∈ cards ∧ (serial = 0%N ∨ serialNumber y = serial).
Proof.
  revert w. induction cards as [|c rest IH]; intros w; [discriminate|].
  rewrite findYubiKeyLoop_cons.
  pose proof (newYubiKey_card c w) as Hcard.
  destruct (newYubiKey dev c w) as [[[y'|err] w1] l1]; [|discriminate].
  destruct (bool_decide (serial = 0%N) || bool_decide (serialNumber y' = serial))
    eqn:Hcond.
  - intros [= ->]. split; [rewrite (Hcard y eq_refl); apply elem_of_cons; auto|].
    apply orb_true_iff in Hcond as [?%bool_decide_eq_true|?%bool_decide_eq_true]; auto.
  - intros Hrest. destruct (IH w1 Hrest) as [Hin Hserial].
    split; [apply elem_of_cons; auto|done].
Qed.

(** [findYubiKey] with its list of cards made explicit. *)
Lemma findYubiKey_run serial w :
  findYubiKey dev lib serial w =
  match findYubiKeyCards dev lib w with
  | (inr err, w1, _) => (inr err, w1, [])
  | (inl [], w1, _) => (inr (NotFoundError "no yubiKey devices found"), w1, [])
  | (inl yubiKeyCards, w1, _) => findYubiKeyLoop dev lib serial yubiKeyCards w1
  end.
Proof.
  unfold findYubiKey, mbind, Eff_bind, Eff.bind, wrapErr, mret, Eff_ret, Eff.ret.
  rewrite findYubiKeyCards_run.
  destruct (piv_Cards dev w) as [[cards|err] w1]; [|done].
  destruct (List.filter _ cards) as [|c rest]; [done|].
  change (decide (length (c :: rest) = 0%nat)) with (decide (S (length rest) = 0%nat)).
  destruct (decide (S (length rest) = 0%nat)); [lia|].
  by destruct (findYubiKeyLoop dev lib serial (c :: rest) w1) as [[? ?] ?].
Qed.

Lemma findYubiKey_quiet serial w :
  disciplined (Eff.calls (findYubiKey dev lib serial w))
  ∧ writes_nothing (Eff.calls (findYubiKey dev lib serial w)).
Proof.
  rewrite findYubiKey_run, findYubiKeyCards_run.
  destruct (piv_Cards dev w) as [[cards|err] w1]; [|by split; [|constructor]].
  destruct (List.filter _ cards) as [|c rest]; [by split; [|constructor]|].
  apply findYubiKeyLoop_quiet.
Qed.

End KeysFacts.

Section KeysTheorems.
Context {D Conn Pub Priv Statement PrivateKey : Type}.
Variable dev : @YubiKey.Device D Conn Pub Priv.
Variable lib : @YubiKey.Library Pub Statement PrivateKey.
Import YubiKey.

(** X9. A slot that [parsePIVSlot] returns without an error has the key it
    was asked for; with an error, the slot returned is the zero slot. *)
Theorem parsePIVSlot_keeps_key (slotKey : N) :
  match (parsePIVSlot lib slotKey).2 with
  | None => Key (parsePIVSlot lib slotKey).1 = slotKey
  | Some _ => (parsePIVSlot lib slotKey).1 = {| Key := 0; Object := 0 |}
  end.
Proof.
  unfold parsePIVSlot.
  repeat (case_decide; [by subst|]).
  unfold RetiredKeyManagementSlot.
  by destruct ((130 <=? slotKey)%N && (slotKey <=? 149)%N).
Qed.

(** X10. [findYubiKeyCards] makes one call, the listing of the readers, and
    returns the readers whose lower-cased name contains "yubikey", in the
    order they were listed; an error of the listing is returned as it is. *)
Theorem findYubiKeyCards_filters w :
  findYubiKeyCards dev lib w =
  ((match (piv_Cards dev w).1 with
    | inl cards =>
        inl (List.filter (λ c, Contains (strings_ToLower lib c) "yubikey") cards)
    | inr err => inr err
    end),
   (piv_Cards dev w).2, []).
Proof.
  rewrite findYubiKeyCards_run. by destruct (piv_Cards dev w) as [[cards|err] w1].
Qed.

(** X11. The YubiKey that [findYubiKey] returns is one of the listed readers
    whose lower-cased name contains "yubikey", and it carries the serial
    number that was asked for, unless the serial number asked for is 0. *)
Theorem findYubiKey_found serial w y :
  Eff.value (findYubiKey dev lib serial w) = inl y →
  (∃ cards, (piv_Cards dev w).1 = inl cards ∧ card y ∈ cards)
  ∧ Contains (strings_ToLower lib (card y)) "yubikey" = true
  ∧ (serial = 0%N ∨ serialNumber y = serial).
Proof.
  rewrite findYubiKey_run, findYubiKeyCards_run.
  destruct (piv_Cards dev w) as [[cards|err] w1]; [|discriminate]. simpl.
  destruct (List.filter _ cards) as [|c rest] eqn:Hf; [discriminate|].
  intros [Hin Hserial]%findYubiKeyLoop_found.
  rewrite <-Hf in Hin. apply list_elem_of_In, filter_In in Hin as [Hin Hyk].
  split_and!; [|done..]. exists cards. split; [done|]. by apply list_elem_of_In.
Qed.

(** X12. The first YubiKey decides whenever it can: if reading it fails, or
    no serial number is asked for, or its serial number is the one asked for,
    then [findYubiKey] ends there with the outcome of [newYubiKey] on that
    card, and no other card is opened. In particular a first card that cannot
    be read makes the search fail even when the card asked for is plugged in
    as well. *)
Theorem findYubiKey_first_card_decides serial w cards w1 c rest :
  piv_Cards dev w = (inl cards, w1) →
  List.filter (λ c, Contains (strings_ToLower lib c) "yubikey") cards = c :: rest →
  match Eff.value (newYubiKey dev c w1) with
  | inr _ => True
  | inl y => serial = 0%N ∨ serialNumber y = serial
  end →
  findYubiKey dev lib serial w = newYubiKey dev c w1.
Proof.
  intros Hcards Hf Hfirst.
  rewrite findYubiKey_run, findYubiKeyCards_run, Hcards.
  change PIVCardTypeYubiKey with "yubikey". rewrite Hf, findYubiKeyLoop_cons.
  destruct (newYubiKey dev c w1) as [[[y|err] w2] l]; [|done].
  simpl in Hfirst.
  destruct Hfirst as [->| <-]; [done|].
  rewrite (bool_decide_eq_true_2 (serialNumber y = serialNumber y)) by done.
  by rewrite orb_true_r.
Qed.

(** X13. A key that is already in the slot is reused: when the first
    YubiKey is found and [getPrivateKey] succeeds on the slot for the touch
    requirement, [getOrGenerateYubiKeyPrivateKey] generates no key and
    stores no certificate, and what it returns is made from that key. *)
Theorem getOrGenerate_reuses_key touchRequired w y w1 l1 priv w2 l2 :
  findYubiKey dev lib 0 w = (inl y, w1, l1) →
  getPrivateKey dev lib y (slotFor touchRequired) w1 = (inl priv, w2, l2) →
  getOrGenerateYubiKeyPrivateKey dev lib touchRequired w
  = (match keyPEM lib priv with
     | inl pem => NewPrivateKey lib priv pem
     | inr err => inr err
     end, w2, l1 ++ l2)
  ∧ writes_nothing (l1 ++ l2).
Proof.
  intros Hfind Hget. split.
  - unfold getOrGenerateYubiKeyPrivateKey, mbind, Eff_bind, Eff.bind, mret, Eff_ret,
      Eff.ret, wrapErr.
    rewrite Hfind, Hget. simpl.
    destruct (keyPEM lib priv) as [pem|err]; by rewrite !app_nil_r.
  - apply writes_nothing_app.
    + pose proof (findYubiKey_quiet dev lib 0 w) as [_ Hw]. by rewrite Hfind in Hw.
    + pose proof (read_session_quiet _ _ (getPrivateKey_session dev lib y
                    (slotFor touchRequired) w1)) as [_ Hw].
      by rewrite Hget in Hw.
Qed.

(** X14. The key behind a successful [getOrGenerateYubiKeyPrivateKey] sits
    in the slot for the touch requirement and reports the matching policy:
    hardware key with touch when touch is required, hardware key when
    not. *)
Theorem getOrGenerate_policy touchRequired w pk :
  Eff.value (getOrGenerateYubiKeyPrivateKey dev lib touchRequired w) = inl pk →
  ∃ priv pem,
    keyPEM lib priv = inl pem
    ∧ NewPrivateKey lib priv pem = inl pk
    ∧ key_pivSlot priv = (if touchRequired then SlotSignature else SlotAuthentication)
    ∧ GetPrivateKeyPolicy priv
      = (if touchRequired then PrivateKeyPolicyHardwareKeyTouch
         else PrivateKeyPolicyHardwareKey).
Proof.
  unfold getOrGenerateYubiKeyPrivateKey, mbind, Eff_bind, Eff.bind, mret, Eff_ret,
    Eff.ret, wrapErr, Eff.value.
  destruct (findYubiKey dev lib 0 w) as [[[y|err] w1] l1]; [|discriminate].
  pose proof (getPrivateKey_key dev lib y (slotFor touchRequired) w1) as Hget.
  destruct (getPrivateKey dev lib y (slotFor touchRequired) w1) as [[[priv|err] w2] l2];
    simpl in *.
  - destruct (Hget priv eq_refl) as [_ Hslot].
    destruct (keyPEM lib priv) as [pem|err] eqn:Hpem; [|discriminate].
    simpl. intros Hpk. exists priv, pem. split_and!; [done..| |].
    + rewrite Hslot. by destruct touchRequired.
    + unfold GetPrivateKeyPolicy. rewrite Hslot. by destruct touchRequired.
  - pose proof (generatePrivateKey_key dev lib y (slotFor touchRequired)
                  (touchPolicyFor touchRequired) w2) as Hgen.
    destruct (generatePrivateKey dev lib y (slotFor touchRequired)
                (touchPolicyFor touchRequired) w2) as [[[priv|err'] w3] l3];
      simpl in *; [|discriminate].
    destruct (Hgen priv eq_refl) as (_ & Hslot & _).
    destruct (keyPEM lib priv) as [pem|err'] eqn:Hpem; [|discriminate].
    simpl. intros Hpk. exists priv, pem. split_and!; [done..| |].
    + rewrite Hslot. by destruct touchRequired.
    + unfold GetPrivateKeyPolicy. rewrite Hslot. by destruct touchRequired.
Qed.

(** X15. What [keyPEM] marshals for a key in one of the two slots that keys
    are generated in leads back to that key's card and slot: given that the
    JSON decoder inverts the encoder on it, [parseYubiKeyPrivateKeyData]
    looks for the YubiKey with the key's serial number and then for the
    private key in the key's slot. *)
Theorem keyPEM_data_parses_back touchRequired priv keyDataBytes w :
  key_pivSlot priv = slotFor touchRequired →
  json_Marshal lib {| SerialNumber := serialNumber (key_yubiKey priv);
                      SlotKey := Key (key_pivSlot priv) |} = inl keyDataBytes →
  json_Unmarshal lib keyDataBytes
  = inl {| SerialNumber := serialNumber (key_yubiKey priv);
           SlotKey := Key (key_pivSlot priv) |} →
  keyPEM lib priv = inl (pem_EncodeToMemory lib (pivYubiKeyPrivateKeyType lib) keyDataBytes)
  ∧ parseYubiKeyPrivateKeyData dev lib keyDataBytes w =
    match findYubiKey dev lib (serialNumber (key_yubiKey priv)) w with
    | (inr err, w1, l1) => (inr err, w1, l1)
    | (inl y, w1, l1) =>
        (Eff.value (getPrivateKey dev lib y (key_pivSlot priv) w1),
         Eff.world (getPrivateKey dev lib y (key_pivSlot priv) w1),
         l1 ++ Eff.calls (getPrivateKey dev lib y (key_pivSlot priv) w1))
    end.
Proof.
  intros Hslot Hmarshal Hunmarshal. split.
  { unfold keyPEM. by rewrite Hmarshal. }
  unfold parseYubiKeyPrivateKeyData. rewrite Hunmarshal. simpl.
  assert (parsePIVSlot lib (Key (key_pivSlot priv)) = (key_pivSlot priv, None)) as ->.
  { rewrite Hslot. by destruct touchRequired. }
  unfold mbind, Eff_bind, Eff.bind, mret, Eff_ret, Eff.ret, wrapErr.
  destruct (findYubiKey dev lib _ w) as [[[y|err] w1] l1]; [|by rewrite app_nil_r].
  destruct (getPrivateKey dev lib y (key_pivSlot priv) w1) as [[[priv'|err] w2] l2];
    simpl; by rewrite app_nil_r.
Qed.

Lemma Sign_session y digest opts w :
  Eff.calls (Sign dev y digest opts w) = [EvOpenFailed (card (key_yubiKey y))]
  ∨ Eff.calls (Sign dev y digest opts w)
    = [EvOpened (card (key_yubiKey y)); EvClosed (card (key_yubiKey y))].
Proof.
  unfold Sign, open, deferClose, close, wrapErr, Eff.calls. eff_unfold.
  repeat dev_step; auto.
Qed.

Lemma GetAttestationStatement_session y w :
  Eff.calls (GetAttestationStatement dev lib y w) = [EvOpenFailed (card (key_yubiKey y))]
  ∨ Eff.calls (GetAttestationStatement dev lib y w)
    = [EvOpened (card (key_yubiKey y)); EvClosed (card (key_yubiKey y))].
Proof.
  unfold GetAttestationStatement, open, deferClose, close, wrapErr, Eff.calls.
  eff_unfold. repeat dev_step; auto.
Qed.

Lemma parseYubiKeyPrivateKeyData_quiet keyDataBytes w :
  disciplined (Eff.calls (parseYubiKeyPrivateKeyData dev lib keyDataBytes w))
  ∧ writes_nothing (Eff.calls (parseYubiKeyPrivateKeyData dev lib keyDataBytes w)).
Proof.
  unfold parseYubiKeyPrivateKeyData.
  destruct (json_Unmarshal lib keyDataBytes) as [keyData|err];
    [|by split; [|constructor]].
  destruct (parsePIVSlot lib (SlotKey keyData)) as [pivSlot [err|]];
    [by split; [|constructor]|].
  unfold mbind, Eff_bind, Eff.bind, mret, Eff_ret, Eff.ret, wrapErr.
  pose proof (findYubiKey_quiet dev lib (SerialNumber keyData) w) as [Hd1 Hw1].
  destruct (findYubiKey dev lib _ w) as [[[y|err] w1] l1];
    [|unfold Eff.calls in *; simpl in *; by rewrite app_nil_r].
  pose proof (read_session_quiet _ _ (getPrivateKey_session dev lib y pivSlot w1))
    as [Hd2 Hw2].
  destruct (getPrivateKey dev lib y pivSlot w1) as [[[priv|err] w2] l2];
    unfold Eff.calls in *; simpl in *; rewrite app_nil_r;
    (split; [by apply disciplined_app|by apply writes_nothing_app]).
Qed.

Lemma getOrGenerate_disciplined touchRequired w :
  disciplined (Eff.calls (getOrGenerateYubiKeyPrivateKey dev lib touchRequired w)).
Proof.
  unfold getOrGenerateYubiKeyPrivateKey, mbind, Eff_bind, Eff.bind, mret, Eff_ret,
    Eff.ret, wrapErr.
  pose proof (findYubiKey_quiet dev lib 0 w) as [Hd1 _].
  destruct (findYubiKey dev lib 0 w) as [[[y|err] w1] l1];
    [|unfold Eff.calls in *; simpl in *; by rewrite app_nil_r].
  pose proof (read_session_quiet _ _ (getPrivateKey_session dev lib y
                (slotFor touchRequired) w1)) as [Hd2 _].
  destruct (getPrivateKey dev lib y (slotFor touchRequired) w1)
    as [[[priv|err] w2] l2]; unfold Eff.calls in *; simpl in *.
  - destruct (keyPEM lib priv); simpl; rewrite !app_nil_r; by apply disciplined_app.
  - pose proof (generatePrivateKey_disciplined dev lib y (slotFor touchRequired)
                  (touchPolicyFor touchRequired) w2) as Hd3.
    destruct (generatePrivateKey dev lib y (slotFor touchRequired)
                (touchPolicyFor touchRequired) w2) as [[[priv|err'] w3] l3];
      unfold Eff.calls in *; simpl in *;
      [destruct (keyPEM lib priv); simpl|]; rewrite !app_nil_r;
      apply disciplined_app; try done; by apply disciplined_app.
Qed.

(** X16. One connection at a time: in the log of every function that talks
    to the card, a connection is opened only when none is open, every
    connection that was opened is closed before the function returns, and
    keys are generated and certificates stored only while connected. *)
Theorem one_connection_at_a_time :
  (∀ c w, disciplined (Eff.calls (newYubiKey dev c w)))
  ∧ (∀ serial w, disciplined (Eff.calls (findYubiKey dev lib serial w)))
  ∧ (∀ y slot w, disciplined (Eff.calls (getPrivateKey dev lib y slot w)))
  ∧ (∀ y slot touchPolicy w,
       disciplined (Eff.calls (generatePrivateKey dev lib y slot touchPolicy w)))
  ∧ (∀ touchRequired w,
       disciplined (Eff.calls (getOrGenerateYubiKeyPrivateKey dev lib touchRequired w)))
  ∧ (∀ keyDataBytes w,
       disciplined (Eff.calls (parseYubiKeyPrivateKeyData dev lib keyDataBytes w)))
  ∧ (∀ y digest opts w, disciplined (Eff.calls (Sign dev y digest opts w)))
  ∧ (∀ y w, disciplined (Eff.calls (GetAttestationStatement dev lib y w))).
Proof.
  split_and!; intros.
  - eapply read_session_quiet, newYubiKey_session.
  - apply findYubiKey_quiet.
  - eapply read_session_quiet, getPrivateKey_session.
  - apply generatePrivateKey_disciplined.
  - apply getOrGenerate_disciplined.
  - apply parseYubiKeyPrivateKeyData_quiet.
  - eapply read_session_quiet, Sign_session.
  - eapply read_session_quiet, GetAttestationStatement_session.
Qed.

(** X17. Looking up never writes: finding a YubiKey, getting the private key
    of a slot, parsing key data, signing and attesting generate no key and
    store no certificate, whatever the card answers. *)
Theorem lookups_write_nothing :
  (∀ serial w, writes_nothing (Eff.calls (findYubiKey dev lib serial w)))
  ∧ (∀ y slot w, writes_nothing (Eff.calls (getPrivateKey dev lib y slot w)))
  ∧ (∀ keyDataBytes w,
       writes_nothing (Eff.calls (parseYubiKeyPrivateKeyData dev lib keyDataBytes w)))
  ∧ (∀ y digest opts w, writes_nothing (Eff.calls (Sign dev y digest opts w)))
  ∧ (∀ y w, writes_nothing (Eff.calls (GetAttestationStatement dev lib y w))).
Proof.
  split_and!; intros.
  - apply findYubiKey_quiet.
  - eapply read_session_quiet, getPrivateKey_session.
  - apply parseYubiKeyPrivateKeyData_quiet.
  - eapply read_session_quiet, Sign_session.
  - eapply read_session_quiet, GetAttestationStatement_session.
Qed.

End KeysTheorems.

(** ** Hardware keys on the simulated readers *)

(** X11 at work: the YubiKey with serial number 12345678 is the third reader
    on the desk. *)
Lemma findYubiKey_found_witness :
  (∃ cards,
      (YubiKey.piv_Cards SimKey.device
         (SimKey.desk [SimKey.smartcard; SimKey.used_key; SimKey.fresh_key])).1
      = inl cards
      ∧ "Yubico YubiKey OTP+FIDO+CCID 00" ∈ cards)
  ∧ YubiKey.Contains
      (YubiKey.strings_ToLower SimKey.library "Yubico YubiKey OTP+FIDO+CCID 00")
      "yubikey" = true
  ∧ (12345678%N = 0%N ∨ 12345678%N = 12345678%N).
Proof.
  apply (findYubiKey_found SimKey.device SimKey.library 12345678%N
           (SimKey.desk [SimKey.smartcard; SimKey.used_key; SimKey.fresh_key])
           {| YubiKey.card := "Yubico YubiKey OTP+FIDO+CCID 00";
              YubiKey.serialNumber := 12345678 |}).
  reflexivity.
Defined.

(** X12 at work: the first YubiKey on the desk is in use by another program;
    the search for the second one fails on it. *)
Lemma findYubiKey_first_card_decides_witness :
  YubiKey.findYubiKey SimKey.device SimKey.library 12345678%N
    (SimKey.desk [SimKey.smartcard; SimKey.busy_key; SimKey.fresh_key])
  = YubiKey.newYubiKey SimKey.device "Yubico YubiKey CCID 02"
      (SimKey.desk [SimKey.smartcard; SimKey.busy_key; SimKey.fresh_key]).
Proof.
  apply (findYubiKey_first_card_decides SimKey.device SimKey.library 12345678%N
           (SimKey.desk [SimKey.smartcard; SimKey.busy_key; SimKey.fresh_key])
           (map SimKey.reader_name [SimKey.smartcard; SimKey.busy_key; SimKey.fresh_key])
           (SimKey.desk [SimKey.smartcard; SimKey.busy_key; SimKey.fresh_key])
           "Yubico YubiKey CCID 02" ["Yubico YubiKey OTP+FIDO+CCID 00"]).
  - reflexivity.
  - reflexivity.
  - exact I.
Defined.

(** X13 at work: the YubiKey on the desk holds a client's key in the slot
    without touch. *)
Lemma getOrGenerate_reuses_key_witness :
  YubiKey.getOrGenerateYubiKeyPrivateKey SimKey.device SimKey.library false
    (SimKey.desk [SimKey.smartcard; SimKey.used_key])
  = (match YubiKey.keyPEM SimKey.library
             {| YubiKey.key_yubiKey :=
                  {| YubiKey.card := "Yubico YubiKey CCID 01";
                     YubiKey.serialNumber := 87654321 |};
                YubiKey.key_pivSlot := YubiKey.pivSlotNoTouch;
                YubiKey.key_pub := 42%N |} with
     | inl pem =>
         YubiKey.NewPrivateKey SimKey.library
           {| YubiKey.key_yubiKey :=
                {| YubiKey.card := "Yubico YubiKey CCID 01";
                   YubiKey.serialNumber := 87654321 |};
              YubiKey.key_pivSlot := YubiKey.pivSlotNoTouch;
              YubiKey.key_pub := 42%N |} pem
     | inr err => inr err
     end,
     SimKey.desk [SimKey.smartcard; SimKey.used_key],
     [YubiKey.EvOpened "Yubico YubiKey CCID 01"; YubiKey.EvClosed "Yubico YubiKey CCID 01"]
     ++ [YubiKey.EvOpened "Yubico YubiKey CCID 01";
         YubiKey.EvClosed "Yubico YubiKey CCID 01"])
  ∧ YubiKey.writes_nothing
      ([YubiKey.EvOpened "Yubico YubiKey CCID 01"; YubiKey.EvClosed "Yubico YubiKey CCID 01"]
       ++ [YubiKey.EvOpened "Yubico YubiKey CCID 01";
           YubiKey.EvClosed "Yubico YubiKey CCID 01"]).
Proof.
  apply (getOrGenerate_reuses_key SimKey.device SimKey.library false
           (SimKey.desk [SimKey.smartcard; SimKey.used_key])
           {| YubiKey.card := "Yubico YubiKey CCID 01"; YubiKey.serialNumber := 87654321 |}
           (SimKey.desk [SimKey.smartcard; SimKey.used_key])
           [YubiKey.EvOpened "Yubico YubiKey CCID 01";
            YubiKey.EvClosed "Yubico YubiKey CCID 01"]
           {| YubiKey.key_yubiKey :=
                {| YubiKey.card := "Yubico YubiKey CCID 01";
                   YubiKey.serialNumber := 87654321 |};
              YubiKey.key_pivSlot := YubiKey.pivSlotNoTouch;
              YubiKey.key_pub := 42%N |}
           (SimKey.desk [SimKey.smartcard; SimKey.used_key])
           [YubiKey.EvOpened "Yubico YubiKey CCID 01";
            YubiKey.EvClosed "Yubico YubiKey CCID 01"]).
  - reflexivity.
  - reflexivity.
Defined.

(** X14 at work: touch is required and the slot with touch is empty, so a
    key is generated there. *)
Lemma getOrGenerate_policy_witness :
  ∃ priv pem,
    YubiKey.keyPEM SimKey.library priv = inl pem
    ∧ YubiKey.NewPrivateKey SimKey.library priv pem
      = Eff.value (YubiKey.getOrGenerateYubiKeyPrivateKey SimKey.device SimKey.library true
                     (SimKey.desk [SimKey.smartcard; SimKey.used_key]))
    ∧ YubiKey.key_pivSlot priv = YubiKey.SlotSignature
    ∧ YubiKey.GetPrivateKeyPolicy priv = YubiKey.PrivateKeyPolicyHardwareKeyTouch.
Proof.
  destruct (getOrGenerate_policy SimKey.device SimKey.library true
              (SimKey.desk [SimKey.smartcard; SimKey.used_key])
              ({| YubiKey.key_yubiKey :=
                    {| YubiKey.card := "Yubico YubiKey CCID 01";
                       YubiKey.serialNumber := 87654321 |};
                  YubiKey.key_pivSlot := YubiKey.SlotSignature;
                  YubiKey.key_pub := 100%N |}, [87654321%N; 156%N]) eq_refl)
    as (priv & pem & Hpem & Hnew & Hslot & Hpolicy).
  exists priv, pem. split_and!; [done| |done|done].
  rewrite Hnew. reflexivity.
Defined.

(** X15 at work: the key generated on the fresh YubiKey, slot 9a. *)
Lemma keyPEM_data_parses_back_witness :
  YubiKey.keyPEM SimKey.library
    {| YubiKey.key_yubiKey :=
         {| YubiKey.card := "Yubico YubiKey OTP+FIDO+CCID 00";
            YubiKey.serialNumber := 12345678 |};
       YubiKey.key_pivSlot := YubiKey.SlotAuthentication;
       YubiKey.key_pub := 100%N |}
  = inl [12345678%N; 154%N]
  ∧ Eff.calls (YubiKey.parseYubiKeyPrivateKeyData SimKey.device SimKey.library
                 [12345678%N; 154%N]
                 (SimKey.desk [SimKey.used_key; SimKey.fresh_key]))
    = [YubiKey.EvOpened "Yubico YubiKey CCID 01"; YubiKey.EvClosed "Yubico YubiKey CCID 01";
       YubiKey.EvOpened "Yubico YubiKey OTP+FIDO+CCID 00";
       YubiKey.EvClosed "Yubico YubiKey OTP+FIDO+CCID 00";
       YubiKey.EvOpened "Yubico YubiKey OTP+FIDO+CCID 00";
       YubiKey.EvClosed "Yubico YubiKey OTP+FIDO+CCID 00"].
Proof.
  destruct (keyPEM_data_parses_back SimKey.device SimKey.library false
              {| YubiKey.key_yubiKey :=
                   {| YubiKey.card := "Yubico YubiKey OTP+FIDO+CCID 00";
                      YubiKey.serialNumber := 12345678 |};
                 YubiKey.key_pivSlot := YubiKey.SlotAuthentication;
                 YubiKey.key_pub := 100%N |}
              [12345678%N; 154%N]
              (SimKey.desk [SimKey.used_key; SimKey.fresh_key])
              eq_refl eq_refl eq_refl) as [Hpem Hparse].
  split; [exact Hpem|]. rewrite Hparse. reflexivity.
Defined.
